(** * Corner mobile client: conversation screen, notification badge, admin analytics

    A shallow embedding of the message life cycle of
    [app/conversation.tsx] ([loadMessages], [handleSendMessage],
    [handleLongPress], [handleEditMessage], [handleDeleteMessage],
    [handleSaveEdit]), of the [NotificationBadge] component and of
    [calculateAnalytics] of [app/admin-dashboard.tsx].

    The handlers are asynchronous React callbacks.  Each one is embedded as a
    computation in a small monad that threads the component state, logs every
    state setter and every request to the document store in the order the
    code performs them, and propagates a rejected request as an exception to
    the enclosing [try]/[catch].  A handler runs to completion before the
    next one starts. *)

From stdpp Require Import base option list sorting gmap numbers strings.
From Stdlib Require Import Ascii QArith.

Local Open Scope Z_scope.

(** ** JavaScript strings *)

(** A string is its sequence of UTF-16 code units. *)
Definition jsstring : Type := list N.

(** A literal of the source, written in ASCII. *)
Definition js (s : string) : jsstring :=
  (fun a => N_of_ascii a) <$> String.list_ascii_of_string s.

(** ECMAScript [WhiteSpace] and [LineTerminator] code points, the ones
    [String.prototype.trim] strips. *)
Definition is_white_space (c : N) : bool :=
  ((c =? 0x09) || (c =? 0x0A) || (c =? 0x0B) || (c =? 0x0C) || (c =? 0x0D)
   || (c =? 0x20) || (c =? 0xA0) || (c =? 0x1680)
   || ((0x2000 <=? c) && (c <=? 0x200A))
   || (c =? 0x2028) || (c =? 0x2029) || (c =? 0x202F) || (c =? 0x205F)
   || (c =? 0x3000) || (c =? 0xFEFF))%N.

Fixpoint trim_start (s : jsstring) : jsstring :=
  match s with
  | c :: s' => if is_white_space c then trim_start s' else s
  | [] => []
  end.

Definition trim_end (s : jsstring) : jsstring := reverse (trim_start (reverse s)).

(** [s.trim()] *)
Definition trim (s : jsstring) : jsstring := trim_end (trim_start s).

(** A text is blank when it is empty or made of white space only. *)
Definition blank (s : jsstring) : Prop := Forall (fun c => is_white_space c = true) s.

#[global] Instance blank_dec s : Decision (blank s).
Proof. unfold blank. apply _. Defined.

(** Truthiness of a string: only the empty string is falsy. *)
Definition truthy (s : jsstring) : bool :=
  match s with [] => false | _ :: _ => true end.

(** [a || b] on strings where [a] may be [undefined]. *)
Definition str_or (a : option jsstring) (b : jsstring) : jsstring :=
  match a with
  | Some s => if truthy s then s else b
  | None => b
  end.

(** [a === b] on strings. *)
Definition str_eqb (a b : jsstring) : bool := bool_decide (a = b).

(** The order the store sorts string fields by: lexicographic on the
    encoded characters. *)
Fixpoint str_leb (a b : jsstring) : bool :=
  match a, b with
  | [], _ => true
  | _ :: _, [] => false
  | x :: a', y :: b' =>
      if (x <? y)%N then true
      else if (x =? y)%N then str_leb a' b' else false
  end.

(** ** Data model *)

(** [interface Message] *)
Record Message := mkMessage {
  id : jsstring;
  senderId : jsstring;
  senderName : jsstring;
  receiverId : jsstring;
  receiverName : jsstring;
  content : jsstring;
  timestamp : jsstring;
  read : bool;
  edited : option bool;
  editedAt : option jsstring
}.

(** The fields of a document of the [messages] collection, as
    [messageDoc.data()] returns them; [read], [edited] and [editedAt] may be
    missing. *)
Record MessageData := mkMessageData {
  d_senderId : jsstring;
  d_senderName : jsstring;
  d_receiverId : jsstring;
  d_receiverName : jsstring;
  d_content : jsstring;
  d_timestamp : jsstring;
  d_read : option bool;
  d_edited : option bool;
  d_editedAt : option jsstring
}.

Record MessageDoc := mkMessageDoc {
  doc_id : jsstring;
  doc_data : MessageData
}.

(** [userDoc.data()]: only [name] is read by the conversation screen. *)
Record UserData := mkUserData {
  name : option jsstring
}.

(** ** Requests to the document store *)

Inductive StoreCall :=
| UsersGet (uid : jsstring)
    (* collection('users').doc(uid).get() *)
| MessagesQuery (userId otherUserId : jsstring)
    (* collection('messages').where(..).where(..).orderBy('timestamp','asc').get() *)
| MessagesAdd (d : MessageData)
    (* collection('messages').add(d) *)
| MessagesUpdateRead (docId : jsstring)
    (* collection('messages').doc(docId).update({read: true}) *)
| MessagesUpdateEdit (docId newContent newEditedAt : jsstring)
    (* collection('messages').doc(docId).update({content, edited: true, editedAt}) *)
| MessagesDelete (docId : jsstring)
    (* collection('messages').doc(docId).delete() *)
| UsersUpdateSeen (uid : jsstring) (lastSeenTime : Z).
    (* collection('users').doc(uid).update({'notificationData.lastSeenTime': now,
                                            'notificationData.unreadCount': 0}) *)

(** ** Effects *)

(** What a handler does, in order.  [U] is the type of the state setter calls
    of the component. *)
Inductive Event (U : Type) :=
| Local (u : U)                 (* a state setter is called *)
| Request (c : StoreCall)       (* a request is sent to the store *)
| Settled (ok : bool)           (* the awaited request resolves or rejects *)
| ConsoleError (msg : string)   (* console.error(msg, error) *)
| ScrollToEnd                   (* setTimeout(() => scrollToEnd(..), 100) *)
| PropCallback (prop : string)  (* a callback passed as a prop is called *)
| RouterPush (target : string). (* router.push(target) *)
Arguments Local {U} u.
Arguments Request {U} c.
Arguments Settled {U} ok.
Arguments ConsoleError {U} msg.
Arguments ScrollToEnd {U}.
Arguments PropCallback {U} prop.
Arguments RouterPush {U} target.

Section Effects.
Context {S U : Type}.
(** How a setter call changes the component state. *)
Variable apply_setter : U -> S -> S.

Record Machine := mkMachine {
  ui : S;                   (* the component state *)
  net : list bool;          (* answers of the store to the next requests:
                               [true] resolves, [false] rejects; an exhausted
                               list resolves *)
  trace : list (Event U)    (* what has happened so far, oldest first *)
}.

Inductive Outcome (A : Type) :=
| Done (a : A)
| Thrown.
Arguments Done {A} a.
Arguments Thrown {A}.

Definition M (A : Type) : Type := Machine -> Outcome A * Machine.

Definition ret {A} (a : A) : M A := fun m => (Done a, m).

Definition bind {A B} (c : M A) (k : A -> M B) : M B :=
  fun m =>
    match c m with
    | (Done a, m') => k a m'
    | (Thrown, m') => (Thrown, m')
    end.

Definition emit (e : Event U) : M unit :=
  fun m => (Done tt, mkMachine (ui m) (net m) (trace m ++ [e])).

(** A state setter: the call is logged and the state changes. *)
Definition set_state (u : U) : M unit :=
  fun m => (Done tt, mkMachine (apply_setter u (ui m)) (net m) (trace m ++ [Local u])).

(** Whether the next request resolves. *)
Definition next_answer (m : Machine) : bool :=
  match net m with [] => true | b :: _ => b end.

(** [await <request>], the request answering [a] when it resolves. *)
Definition await {A} (c : StoreCall) (a : A) : M A :=
  fun m =>
    let ok := next_answer m in
    let m' := mkMachine (ui m) (tail (net m)) (trace m ++ [Request c; Settled ok]) in
    (if ok then Done a else Thrown, m').

(** [try { c } catch (error) { h }] *)
Definition try_catch {A} (c : M A) (h : M A) : M A :=
  fun m =>
    match c m with
    | (Done a, m') => (Done a, m')
    | (Thrown, m') => h m'
    end.

(** [try { c } finally { f }] *)
Definition try_finally {A} (c : M A) (f : M unit) : M A :=
  fun m =>
    match c m with
    | (r, m') =>
        match f m' with
        | (Done _, m'') => (r, m'')
        | (Thrown, m'') => (Thrown, m'')
        end
    end.

(** Running a handler: the machine it leaves behind. *)
Definition exec {A} (c : M A) (m : Machine) : Machine := snd (c m).

(** The requests of a trace, in order. *)
Definition requests (tr : list (Event U)) : list StoreCall :=
  omap (fun e => match e with Request c => Some c | _ => None end) tr.

(** What a handler adds to the trace. *)
Definition new_events (before after : Machine) : list (Event U) :=
  drop (length (trace before)) (trace after).

(** Position of the first event of a trace that satisfies [p]. *)
Fixpoint position (p : Event U -> bool) (tr : list (Event U)) : option nat :=
  match tr with
  | [] => None
  | e :: tr' => if p e then Some 0%nat else Nat.succ <$> position p tr'
  end.
End Effects.

Arguments Machine : clear implicits.
Arguments M : clear implicits.
Arguments Done {A} a.
Arguments Thrown {A}.

Declare Scope eff_scope.
Delimit Scope eff_scope with eff.
Notation "x <- c ;; k" := (bind c (fun x => k))
  (at level 100, c at next level, right associativity) : eff_scope.
Notation "c ;; k" := (bind c (fun _ => k))
  (at level 100, right associativity) : eff_scope.

(** ** The conversation screen ([ConversationScreen]) *)

Module Conversation.

(** What a button of [CustomAlert] does when pressed. *)
Inductive AlertHandler :=
| closeAlert                          (* () => setAlertConfig(null) *)
| confirmDelete (selected : Message). (* the async closure of the Delete
                                         button, over [selectedMessage] *)

Record AlertAction := mkAlertAction {
  text : string;
  onPress : AlertHandler;
  style : string
}.

Record AlertConfig := mkAlertConfig {
  visible : bool;
  title : string;
  message : string;
  type : string;
  actions : list AlertAction
}.

(** The [useState] cells of the component. *)
Record Screen := mkScreen {
  messages : list Message;
  newMessage : jsstring;
  loading : bool;
  sending : bool;
  userData : option UserData;
  editingMessage : option Message;
  editText : jsstring;
  showEditModal : bool;
  showActionSheet : bool;
  selectedMessage : option Message;
  alertConfig : option AlertConfig
}.

(** The state at mount. *)
Definition initial : Screen :=
  mkScreen [] [] true false None None [] false false None None.

(** The setter calls that occur in the component. *)
Inductive Setter :=
| setMessages (l : list Message)
| setMessages_append (m : Message)        (* setMessages(prev => [...prev, m]) *)
| setNewMessage (t : jsstring)
| setLoading (b : bool)
| setSending (b : bool)
| setUserData (u : option UserData)
| setEditingMessage (m : option Message)
| setEditText (t : jsstring)
| setShowEditModal (b : bool)
| setShowActionSheet (b : bool)
| setSelectedMessage (m : option Message)
| setAlertConfig (a : option AlertConfig).

Definition apply_setter (u : Setter) (s : Screen) : Screen :=
  match u with
  | setMessages l =>
      mkScreen l (newMessage s) (loading s) (sending s) (userData s) (editingMessage s) (editText s) (showEditModal s) (showActionSheet s) (selectedMessage s) (alertConfig s)
  | setMessages_append m =>
      mkScreen (messages s ++ [m]) (newMessage s) (loading s) (sending s) (userData s) (editingMessage s) (editText s) (showEditModal s) (showActionSheet s) (selectedMessage s) (alertConfig s)
  | setNewMessage t =>
      mkScreen (messages s) t (loading s) (sending s) (userData s) (editingMessage s) (editText s) (showEditModal s) (showActionSheet s) (selectedMessage s) (alertConfig s)
  | setLoading b =>
      mkScreen (messages s) (newMessage s) b (sending s) (userData s) (editingMessage s) (editText s) (showEditModal s) (showActionSheet s) (selectedMessage s) (alertConfig s)
  | setSending b =>
      mkScreen (messages s) (newMessage s) (loading s) b (userData s) (editingMessage s) (editText s) (showEditModal s) (showActionSheet s) (selectedMessage s) (alertConfig s)
  | setUserData u =>
      mkScreen (messages s) (newMessage s) (loading s) (sending s) u (editingMessage s) (editText s) (showEditModal s) (showActionSheet s) (selectedMessage s) (alertConfig s)
  | setEditingMessage m =>
      mkScreen (messages s) (newMessage s) (loading s) (sending s) (userData s) m (editText s) (showEditModal s) (showActionSheet s) (selectedMessage s) (alertConfig s)
  | setEditText t =>
      mkScreen (messages s) (newMessage s) (loading s) (sending s) (userData s) (editingMessage s) t (showEditModal s) (showActionSheet s) (selectedMessage s) (alertConfig s)
  | setShowEditModal b =>
      mkScreen (messages s) (newMessage s) (loading s) (sending s) (userData s) (editingMessage s) (editText s) b (showActionSheet s) (selectedMessage s) (alertConfig s)
  | setShowActionSheet b =>
      mkScreen (messages s) (newMessage s) (loading s) (sending s) (userData s) (editingMessage s) (editText s) (showEditModal s) b (selectedMessage s) (alertConfig s)
  | setSelectedMessage m =>
      mkScreen (messages s) (newMessage s) (loading s) (sending s) (userData s) (editingMessage s) (editText s) (showEditModal s) (showActionSheet s) m (alertConfig s)
  | setAlertConfig a =>
      mkScreen (messages s) (newMessage s) (loading s) (sending s) (userData s) (editingMessage s) (editText s) (showEditModal s) (showActionSheet s) (selectedMessage s) a
  end.

(** What a handler reads besides the component state: the session, the
    route parameters, the clock and the content of the store. *)
Record World := mkWorld {
  currentUser : option jsstring;       (* auth().currentUser, by its uid *)
  otherUserId : jsstring;              (* params.otherUserId *)
  otherUserName : jsstring;            (* params.otherUserName *)
  nowISO : jsstring;                   (* new Date().toISOString() *)
  nowMillis : jsstring;                (* Date.now().toString() *)
  usersDoc : option UserData;          (* users/{uid}, when it exists *)
  messagesCollection : list MessageDoc (* the messages collection *)
}.

Abbreviation Eff := (M Screen Setter).
Abbreviation set := (set_state apply_setter).

Local Open Scope eff_scope.

(** *** The store's answer to the query of [loadMessages] *)

Definition timestamp_le (a b : MessageDoc) : Prop :=
  str_leb (d_timestamp (doc_data a)) (d_timestamp (doc_data b)) = true.

#[global] Instance timestamp_le_dec : RelDecision timestamp_le :=
  fun a b => decide (str_leb (d_timestamp (doc_data a)) (d_timestamp (doc_data b)) = true).

(** [.where(field, 'in', [userId, otherUserId])] *)
Definition is_in (x : jsstring) (userId other : jsstring) : bool :=
  str_eqb x userId || str_eqb x other.

(** The documents the query of [loadMessages] returns: both [where]
    clauses hold, ascending [timestamp]. *)
Definition messagesQuery (userId other : jsstring) (coll : list MessageDoc)
  : list MessageDoc :=
  merge_sort timestamp_le
    (List.filter
       (fun d => is_in (d_senderId (doc_data d)) userId other
                 && is_in (d_receiverId (doc_data d)) userId other)
       coll).

(** *** [loadMessages] *)

(** The condition of the [if] in the loop: the message is between these two
    users. *)
Definition between (userId other : jsstring) (d : MessageData) : bool :=
  (str_eqb (d_senderId d) userId && str_eqb (d_receiverId d) other)
  || (str_eqb (d_senderId d) other && str_eqb (d_receiverId d) userId).

(** The object pushed on [messagesList]. *)
Definition message_of_doc (d : MessageDoc) : Message :=
  let messageData := doc_data d in
  {| id := doc_id d;
     senderId := d_senderId messageData;
     senderName := d_senderName messageData;
     receiverId := d_receiverId messageData;
     receiverName := d_receiverName messageData;
     content := d_content messageData;
     timestamp := d_timestamp messageData;
     read := default false (d_read messageData);
     edited := Some (default false (d_edited messageData));
     editedAt := match d_editedAt messageData with
                 | Some s => if truthy s then Some s else None
                 | None => None
                 end |}.

(** The [for ... of messagesQuery.docs] loop, [messagesList] being the
    accumulator. *)
Fixpoint loadMessages_loop (userId other : jsstring) (docs : list MessageDoc)
    (messagesList : list Message) : Eff (list Message) :=
  match docs with
  | [] => ret messagesList
  | messageDoc :: rest =>
      let messageData := doc_data messageDoc in
      if between userId other messageData then
        let messagesList' := messagesList ++ [message_of_doc messageDoc] in
        (if str_eqb (d_receiverId messageData) userId
            && negb (default false (d_read messageData))
         then try_catch
                (await (MessagesUpdateRead (doc_id messageDoc)) tt)
                (emit (ConsoleError "Error marking message as read:"))
         else ret tt) ;;
        loadMessages_loop userId other rest messagesList'
      else loadMessages_loop userId other rest messagesList
  end.

Definition loadMessages (w : World) (userId : jsstring) : Eff unit :=
  try_catch
    (docs <- await (MessagesQuery userId (otherUserId w))
                   (messagesQuery userId (otherUserId w) (messagesCollection w)) ;;
     messagesList <- loadMessages_loop userId (otherUserId w) docs [] ;;
     set (setMessages messagesList) ;;
     emit ScrollToEnd)
    (emit (ConsoleError "Error loading messages:")).

Definition loadUserAndMessages (w : World) : Eff unit :=
  try_finally
    (try_catch
       (match currentUser w with
        | None => ret tt
        | Some uid =>
            userDoc <- await (UsersGet uid) (usersDoc w) ;;
            (match userDoc with
             | Some data => set (setUserData (Some data))
             | None => ret tt
             end) ;;
            loadMessages w uid
        end)
       (emit (ConsoleError "Error loading user data:")))
    (set (setLoading false)).

(** *** [handleSendMessage] *)

Definition errorAlert (msg : string) : AlertConfig :=
  {| visible := true;
     title := "Error";
     message := msg;
     type := "error";
     actions := [ {| text := "OK"; onPress := closeAlert; style := "primary" |} ] |}.

(** [const messageData = {...}] *)
Definition messageData (w : World) (s : Screen) (uid : jsstring) (userData : UserData)
  : MessageData :=
  {| d_senderId := uid;
     d_senderName := str_or (name userData) (js "Unknown");
     d_receiverId := otherUserId w;
     d_receiverName := otherUserName w;
     d_content := trim (newMessage s);
     d_timestamp := nowISO w;
     d_read := Some false;
     d_edited := None;
     d_editedAt := None |}.

(** [const newMessageObj = { id: Date.now().toString(), ...messageData }] *)
Definition newMessageObj (w : World) (messageData : MessageData) : Message :=
  {| id := nowMillis w;
     senderId := d_senderId messageData;
     senderName := d_senderName messageData;
     receiverId := d_receiverId messageData;
     receiverName := d_receiverName messageData;
     content := d_content messageData;
     timestamp := d_timestamp messageData;
     read := false;
     edited := None;
     editedAt := None |}.

(** The handler closes over the state [s] of the render it was created in;
    its setter calls act on the current state. *)
Definition handleSendMessage (w : World) (s : Screen) : Eff unit :=
  match userData s with
  | Some userData =>
    if truthy (trim (newMessage s)) then
      try_finally
        (try_catch
           (set (setSending true) ;;
            match currentUser w with
            | None => ret tt
            | Some uid =>
                let messageData := messageData w s uid userData in
                await (MessagesAdd messageData) tt ;;
                set (setMessages_append (newMessageObj w messageData)) ;;
                set (setNewMessage []) ;;
                emit ScrollToEnd
            end)
           (emit (ConsoleError "Error sending message:") ;;
            set (setAlertConfig
                   (Some (errorAlert "Failed to send message. Please try again.")))))
        (set (setSending false))
    else ret tt
  | None => ret tt
  end.

(** *** Edit and delete *)

Definition handleLongPress (w : World) (message : Message) : Eff unit :=
  match currentUser w with
  | Some uid =>
      if str_eqb (senderId message) uid then
        set (setSelectedMessage (Some message)) ;;
        set (setShowActionSheet true)
      else ret tt
  | None => ret tt
  end.

Definition handleEditMessage (s : Screen) : Eff unit :=
  match selectedMessage s with
  | None => ret tt
  | Some selected =>
      set (setEditingMessage (Some selected)) ;;
      set (setEditText (content selected)) ;;
      set (setShowEditModal true) ;;
      set (setShowActionSheet false)
  end.

Definition handleDeleteMessage (s : Screen) : Eff unit :=
  match selectedMessage s with
  | None => ret tt
  | Some selected =>
      set (setAlertConfig (Some
        {| visible := true;
           title := "Delete Message";
           message := "Are you sure you want to delete this message?";
           type := "confirm";
           actions :=
             [ {| text := "Cancel"; onPress := closeAlert; style := "cancel" |};
               {| text := "Delete"; onPress := confirmDelete selected;
                  style := "destructive" |} ] |}))
  end.

(** Pressing a button of the alert runs its [onPress]. *)
Definition pressAlert (h : AlertHandler) : Eff unit :=
  match h with
  | closeAlert => set (setAlertConfig None)
  | confirmDelete selected =>
      try_catch
        (await (MessagesDelete (id selected)) tt ;;
         set (setShowActionSheet false) ;;
         set (setSelectedMessage None) ;;
         set (setAlertConfig None))
        (emit (ConsoleError "Error deleting message:") ;;
         set (setAlertConfig
                (Some (errorAlert "Failed to delete message. Please try again."))))
  end.

Definition handleSaveEdit (w : World) (s : Screen) : Eff unit :=
  match editingMessage s with
  | Some editing =>
      if truthy (trim (editText s)) then
        try_catch
          (await (MessagesUpdateEdit (id editing) (trim (editText s)) (nowISO w)) tt ;;
           set (setShowEditModal false) ;;
           set (setEditingMessage None) ;;
           set (setEditText []))
          (emit (ConsoleError "Error editing message:") ;;
           set (setAlertConfig
                  (Some (errorAlert "Failed to edit message. Please try again."))))
      else ret tt
  | None => ret tt
  end.

Definition handleCancelEdit : Eff unit :=
  set (setShowEditModal false) ;;
  set (setEditingMessage None) ;;
  set (setEditText []).

(** *** The screen as an event loop *)

(** What the user can do on the screen, and the [useEffect] that loads the
    conversation (at mount and when [otherUserId] changes). *)
Inductive Action :=
| Load                               (* useEffect: loadUserAndMessages() *)
| TypeMessage (t : jsstring)         (* onChangeText={setNewMessage} *)
| PressSend                          (* onPress={handleSendMessage} *)
| LongPress (m : Message)            (* onLongPress={() => handleLongPress(message)} *)
| CloseActionSheet                   (* onPress={() => setShowActionSheet(false)} *)
| PressEdit                          (* onPress={handleEditMessage} *)
| PressDelete                        (* onPress={handleDeleteMessage} *)
| PressAlertButton (i : nat)         (* the i-th button of CustomAlert *)
| DismissAlert                       (* onDismiss={() => setAlertConfig(null)} *)
| TypeEdit (t : jsstring)            (* onChangeText={setEditText} *)
| PressSave                          (* onPress={handleSaveEdit} *)
| PressCancelEdit.                   (* onPress={handleCancelEdit} *)

Definition handler (w : World) (a : Action) (s : Screen) : Eff unit :=
  match a with
  | Load => loadUserAndMessages w
  | TypeMessage t => set (setNewMessage t)
  | PressSend => handleSendMessage w s
  | LongPress m => handleLongPress w m
  | CloseActionSheet => set (setShowActionSheet false)
  | PressEdit => handleEditMessage s
  | PressDelete => handleDeleteMessage s
  | PressAlertButton i =>
      match alertConfig s with
      | Some alert =>
          match actions alert !! i with
          | Some action => pressAlert (onPress action)
          | None => ret tt
          end
      | None => ret tt
      end
  | DismissAlert => set (setAlertConfig None)
  | TypeEdit t => set (setEditText t)
  | PressSave => handleSaveEdit w s
  | PressCancelEdit => handleCancelEdit
  end.

(** One turn of the loop: the handler of the current render runs to its
    end.  The loop takes every action in every state; the screen offers an
    action only while its control is rendered, so its runs are among
    these. *)
Definition step (m : Machine Screen Setter) (wa : World * Action)
  : Machine Screen Setter :=
  exec (handler (fst wa) (snd wa) (ui m)) m.

Definition run (was : list (World * Action)) (m : Machine Screen Setter)
  : Machine Screen Setter :=
  fold_left step was m.

Definition is_append (e : Event Setter) : bool :=
  match e with Local (setMessages_append _) => true | _ => false end.

Definition is_confirmation (e : Event Setter) : bool :=
  match e with Settled _ => true | _ => false end.

(** *** Vocabulary of the properties *)

(** [{senderId, receiverId}] is the unordered pair [{a, b}]. *)
Definition of_pair (a b : jsstring) (x : Message) : Prop :=
  (senderId x = a /\ receiverId x = b) \/ (senderId x = b /\ receiverId x = a).

#[global] Instance of_pair_dec a b x : Decision (of_pair a b x).
Proof. unfold of_pair. apply _. Defined.

(** [x] is not later than [y]. *)
Definition by_timestamp (x y : Message) : Prop :=
  str_leb (timestamp x) (timestamp y) = true.

(** What a send is said to do, from the machine [before] it to the one
    [after] it: one entry more at the end of the list, and one create
    request, with the trimmed text and not read. *)
Definition appended_one (before after : Machine Screen Setter) : Prop :=
  exists e, messages (ui after) = messages (ui before) ++ [e].

Definition created_one (before after : Machine Screen Setter) : Prop :=
  exists d,
    requests (new_events before after) = [MessagesAdd d]
    /\ d_content d = trim (newMessage (ui before))
    /\ d_read d = Some false.

(** The local append comes before the confirmation of the store. *)
Definition append_before_confirmation (tr : list (Event Setter)) : Prop :=
  exists i j, position is_append tr = Some i
              /\ position is_confirmation tr = Some j /\ (i < j)%nat.

(** The document an event asks the store to edit, when it is the update of
    [handleSaveEdit]. *)
Definition edit_target (e : Event Setter) : option jsstring :=
  match e with
  | Request (MessagesUpdateEdit docId _ _) => Some docId
  | _ => None
  end.

(** Throughout the run the session, when there is one, is that of [uid]. *)
Definition session (uid : jsstring) (was : list (World * Action)) : Prop :=
  Forall (fun wa => forall u, currentUser (fst wa) = Some u -> u = uid) was.

(** The conversation with [other] as the screen of [userId] should list it. *)
Definition conversation_listed (userId other : jsstring) (l : list Message) : Prop :=
  Forall (of_pair userId other) l /\ StronglySorted by_timestamp l.

End Conversation.

(** ** The notification badge ([NotificationBadge]) *)

Module NotificationBadge.

(** [userData.notificationData]; any field may be missing.  The two times
    are store timestamps, compared by their instant. *)
Record NotificationData := mkNotificationData {
  nd_unreadCount : option Z;
  lastNotificationTime : option Z;
  lastSeenTime : option Z
}.

(** [doc.data()] of the user's profile. *)
Record Profile := mkProfile {
  notificationData : option NotificationData
}.

Record Badge := mkBadge {
  unreadCount : Z;
  hasNewNotifications : bool
}.

Definition initial : Badge := mkBadge 0 false.

Inductive Setter :=
| setUnreadCount (n : Z)
| setHasNewNotifications (b : bool).

Definition apply_setter (u : Setter) (s : Badge) : Badge :=
  match u with
  | setUnreadCount n => mkBadge n (hasNewNotifications s)
  | setHasNewNotifications b => mkBadge (unreadCount s) b
  end.

Record World := mkWorld {
  currentUser : option jsstring;   (* auth().currentUser, by its uid *)
  onPress : bool;                  (* the [onPress] prop is given *)
  now : Z                          (* new Date() *)
}.

Abbreviation Eff := (M Badge Setter).
Abbreviation set := (set_state apply_setter).

Local Open Scope eff_scope.

(** The first callback of [onSnapshot]; [doc] is [doc.data()]. *)
Definition onSnapshot (doc : option Profile) : Eff unit :=
  match doc with
  | Some userData =>
      let notificationData :=
        default (mkNotificationData None None None) (notificationData userData) in
      let unread := default 0 (nd_unreadCount notificationData) in
      set (setUnreadCount unread) ;;
      match lastNotificationTime notificationData, lastSeenTime notificationData with
      | Some lastNotificationTime, Some lastSeenTime =>
          set (setHasNewNotifications (lastNotificationTime >? lastSeenTime))
      | _, _ =>
          if unread >? 0 then set (setHasNewNotifications true)
          else set (setHasNewNotifications false)
      end
  | None => ret tt
  end.

Definition handlePress (w : World) : Eff unit :=
  (if onPress w then emit (PropCallback "onPress")
   else emit (RouterPush "/notifications")) ;;
  match currentUser w with
  | Some uid =>
      try_catch
        (await (UsersUpdateSeen uid (now w)) tt ;;
         set (setHasNewNotifications false))
        (emit (ConsoleError "Error updating last seen time:"))
  | None => ret tt
  end.

(** *** Vocabulary of the properties *)

(** [hasNew] in the words of the specification: the comparison of the two
    times when both are present; else [unreadCount > 0] if [lastSeenTime] is
    absent; else false. *)
Definition hasNew_specified (nd : NotificationData) : bool :=
  match lastNotificationTime nd, lastSeenTime nd with
  | Some t, Some s => t >? s
  | _, None => default 0 (nd_unreadCount nd) >? 0
  | None, Some _ => false
  end.

(** What the seen action is said to leave in the local state. *)
Definition cleared (s : Badge) : Prop :=
  unreadCount s = 0 /\ hasNewNotifications s = false.

(** The profile as the store holds it once the update of [handlePress] is
    applied. *)
Definition seen (lastSeenTime : Z) (p : Profile) : Profile :=
  let nd := default (mkNotificationData None None None) (notificationData p) in
  mkProfile (Some (mkNotificationData (Some 0) (lastNotificationTime nd)
                                      (Some lastSeenTime))).

End NotificationBadge.

(** ** The analytics of the admin dashboard ([AdminDashboardScreen]) *)

Module AdminDashboard.

(** A JavaScript number that holds a count: an integer, or [NaN]. *)
Inductive jsnum :=
| Num (n : Z)
| NaN.

(** [x++] on a property that may be [undefined]. *)
Definition increment (x : option jsnum) : jsnum :=
  match x with
  | Some (Num n) => Num (n + 1)
  | Some NaN => NaN
  | None => NaN
  end.

(** [interface Feedback]; ratings are integers. *)
Record Feedback := mkFeedback {
  f_id : jsstring;
  rating : Z;
  comment : jsstring;
  email : jsstring;
  userEmail : jsstring
}.

(** [interface Survey], with [answers.features] read as [string[]] and
    [answers.satisfaction] read as [string], as the casts of the source do. *)
Record Survey := mkSurvey {
  s_id : jsstring;
  features : option (list jsstring);
  satisfaction : option jsstring;
  suggestion : jsstring
}.

(** [interface Analytics].  The average is the exact quotient. *)
Record Analytics := mkAnalytics {
  totalFeedback : nat;
  totalSurveys : nat;
  averageRating : Q;
  ratingDistribution : gmap Z jsnum;
  featureUsage : gmap jsstring Z;
  satisfactionDistribution : gmap jsstring Z
}.

(** [{ 1: 0, 2: 0, 3: 0, 4: 0, 5: 0 }] *)
Definition emptyDistribution : gmap Z jsnum :=
  <[1 := Num 0]> (<[2 := Num 0]> (<[3 := Num 0]> (<[4 := Num 0]> (<[5 := Num 0]> ∅)))).

(** The body of [feedback.forEach]. *)
Definition rate (acc : gmap Z jsnum * Z) (f : Feedback) : gmap Z jsnum * Z :=
  let '(ratingDistribution, totalRating) := acc in
  (<[rating f := increment (ratingDistribution !! rating f)]> ratingDistribution,
   totalRating + rating f).

(** [m[k] = (m[k] || 0) + 1] *)
Definition bump (m : gmap jsstring Z) (k : jsstring) : gmap jsstring Z :=
  <[k := default 0 (m !! k) + 1]> m.

Definition useFeatures (featureUsage : gmap jsstring Z) (survey : Survey)
  : gmap jsstring Z :=
  match features survey with
  | Some fs => fold_left bump fs featureUsage
  | None => featureUsage
  end.

Definition useSatisfaction (dist : gmap jsstring Z) (survey : Survey)
  : gmap jsstring Z :=
  match satisfaction survey with
  | Some s => if truthy s then bump dist s else dist
  | None => dist
  end.

(** [calculateAnalytics], over the [feedback] and [surveys] of its render;
    the result is the object it passes to [setAnalytics]. *)
Definition calculateAnalytics (feedback : list Feedback) (surveys : list Survey)
  : Analytics :=
  let '(ratingDistribution, totalRating) :=
    fold_left rate feedback (emptyDistribution, 0) in
  let featureUsage := fold_left useFeatures surveys ∅ in
  let satisfactionDistribution := fold_left useSatisfaction surveys ∅ in
  {| totalFeedback := length feedback;
     totalSurveys := length surveys;
     averageRating :=
       if (0 <? length feedback)%nat
       then (inject_Z totalRating / inject_Z (Z.of_nat (length feedback)))%Q
       else 0%Q;
     ratingDistribution := ratingDistribution;
     featureUsage := featureUsage;
     satisfactionDistribution := satisfactionDistribution |}.

(** Feedback records with the given ratings. *)
Definition rated (rs : list Z) : list Feedback :=
  (fun r => mkFeedback [] r [] [] []) <$> rs.

(** The number of records with rating [r]. *)
Definition count_rating (r : Z) (feedback : list Feedback) : Z :=
  Z.of_nat (length (List.filter (fun f => rating f =? r) feedback)).

Definition sum_ratings (feedback : list Feedback) : Z :=
  foldr (fun f acc => rating f + acc) 0 feedback.

End AdminDashboard.


(** ** Sample data *)

Module Samples.
Import Conversation.

Definition alice : jsstring := js "alice".
Definition bob : jsstring := js "bob".
Definition carol : jsstring := js "carol".

Definition aliceProfile : UserData := mkUserData (Some (js "Alice")).

Definition toCarol : MessageDoc :=
  mkMessageDoc (js "m1")
    (mkMessageData alice (js "Alice") carol (js "Carol") (js "see you at 5")
       (js "2025-01-01T10:00:00.000Z") (Some true) None None).

Definition toBob : MessageDoc :=
  mkMessageDoc (js "m2")
    (mkMessageData alice (js "Alice") bob (js "Bob") (js "hello Bob")
       (js "2025-01-02T09:30:00.000Z") (Some true) None None).

Definition fromBob : MessageDoc :=
  mkMessageDoc (js "m3")
    (mkMessageData bob (js "Bob") alice (js "Alice") (js "hello Alice")
       (js "2025-01-02T09:31:00.000Z") None None None).

Definition collection : list MessageDoc := [fromBob; toCarol; toBob].

(** Alice is signed in and looks at her conversation with [other]. *)
Definition world (other otherName : jsstring) : World :=
  {| currentUser := Some alice;
     otherUserId := other;
     otherUserName := otherName;
     nowISO := js "2025-01-03T08:00:00.000Z";
     nowMillis := js "1735891200000";
     usersDoc := Some aliceProfile;
     messagesCollection := collection |}.

Definition aliceToBob : Message := message_of_doc toBob.
Definition bobToAlice : Message := message_of_doc fromBob.

Definition withBob : World := world bob (js "Bob").
Definition withCarol : World := world carol (js "Carol").

(** Nobody is signed in any more. *)
Definition signedOut : World :=
  {| currentUser := None;
     otherUserId := bob;
     otherUserName := js "Bob";
     nowISO := js "2025-01-03T08:00:00.000Z";
     nowMillis := js "1735891200000";
     usersDoc := None;
     messagesCollection := collection |}.

(** The screen when it starts, the store answering with [net]. *)
Definition boot (net : list bool) : Machine Screen Setter :=
  mkMachine initial net [].

(** The conversation with Bob is loaded and Alice has typed a text. *)
Definition typed (net : list bool) : Machine Screen Setter :=
  run [(withBob, Load); (withBob, TypeMessage (js "  on my way "))] (boot net).

(** Alice has opened the editor on her message to Bob and left only white
    space in both inputs. *)
Definition blanked : Machine Screen Setter :=
  run [(withBob, Load); (withBob, TypeMessage (js "   "));
       (withBob, LongPress aliceToBob); (withBob, PressEdit);
       (withBob, TypeEdit (js " "))] (boot []).

(** Alice edits her message to Bob and saves. *)
Definition editing : list (World * Action) :=
  [(withBob, Load); (withBob, LongPress bobToAlice);
   (withBob, LongPress aliceToBob); (withBob, PressEdit);
   (withBob, TypeEdit (js "hello Bob!")); (withBob, PressSave)].

(** Alice has asked to delete her message to Bob; the alert is open. *)
Definition deleting : Machine Screen Setter :=
  run [(withBob, Load); (withBob, LongPress aliceToBob); (withBob, PressDelete)]
      (boot []).

(** A profile seen at time 100, with two notifications counted since and no
    time of last notification. *)
Definition countedOnly : NotificationBadge.Profile :=
  NotificationBadge.mkProfile
    (Some (NotificationBadge.mkNotificationData (Some 2) None (Some 100))).

(** A badge that shows three unread notifications. *)
Definition threeUnread (net : list bool)
  : Machine NotificationBadge.Badge NotificationBadge.Setter :=
  mkMachine (NotificationBadge.mkBadge 3 true) net [].

Definition pressing (user : option jsstring) : NotificationBadge.World :=
  NotificationBadge.mkWorld user false 200.
End Samples.

(** ** More of the conversation screen: what it renders *)

From stdpp Require Import pretty.

Local Open Scope Z_scope.

Module ConversationView.
Import Conversation.

(** [const isOwnMessage = message.senderId === auth().currentUser?.uid] *)
Definition isOwnMessage (w : World) (message : Message) : bool :=
  match currentUser w with
  | Some uid => str_eqb (senderId message) uid
  | None => false
  end.

(** The condition under which the loop of [loadMessages] marks a message as
    read: it is addressed to the user and not read yet. *)
Definition unread_for (userId : jsstring) (d : MessageDoc) : bool :=
  str_eqb (d_receiverId (doc_data d)) userId
  && negb (default false (d_read (doc_data d))).

(** The document an event asks the store to delete. *)
Definition delete_target (e : Event Setter) : option jsstring :=
  match e with
  | Request (MessagesDelete docId) => Some docId
  | _ => None
  end.

(** The messages the Delete buttons of an alert would delete. *)
Definition alert_targets (a : option AlertConfig) : list Message :=
  match a with
  | Some alert =>
      omap (fun action => match onPress action with
                          | confirmDelete selected => Some selected
                          | closeAlert => None
                          end) (actions alert)
  | None => []
  end.

(** The effects a load can have. *)
Definition is_load_event (e : Event Setter) : bool :=
  match e with
  | Request (UsersGet _) | Request (MessagesQuery _ _)
  | Request (MessagesUpdateRead _) => true
  | Local (setUserData _) | Local (setMessages _) | Local (setLoading _) => true
  | Settled _ | ConsoleError _ | ScrollToEnd => true
  | _ => false
  end.

(** The message text a request asks the store to keep. *)
Definition stored_text (c : StoreCall) : option jsstring :=
  match c with
  | MessagesAdd d => Some (d_content d)
  | MessagesUpdateEdit _ newContent _ => Some newContent
  | _ => None
  end.

(** No character of the text is white space at either end. *)
Definition trimmed (s : jsstring) : Prop :=
  match s with
  | [] => True
  | c :: _ => is_white_space c = false
  end
  /\ match reverse s with
     | [] => True
     | c :: _ => is_white_space c = false
     end.
End ConversationView.

(** ** What the notification badge renders *)

Module BadgeView.
Import NotificationBadge.

(** [name={unreadCount > 0 ? "notifications" : "notifications-outline"}] *)
Definition iconName (s : Badge) : string :=
  if unreadCount s >? 0 then "notifications" else "notifications-outline".

(** [{unreadCount > 0 && (<View style={[styles.badge, ...]}>...)}] *)
Definition showsBadge (s : Badge) : bool := unreadCount s >? 0.

(** [{unreadCount > 99 ? '99+' : unreadCount.toString()}], for a count that is
    an integer. *)
Definition badgeText (s : Badge) : string :=
  if unreadCount s >? 99 then "99+" else pretty (unreadCount s).

(** [{hasNewNotifications && unreadCount === 0 && (<View ... />)}] *)
Definition showsDot (s : Badge) : bool :=
  hasNewNotifications s && (unreadCount s =? 0)%Z.
End BadgeView.

(** ** The admin dashboard screen: access check and loading *)

Module Dashboard.
Import AdminDashboard.

Inductive Tab := overview | feedbackTab | surveysTab.

(** The [useState] cells of [AdminDashboardScreen]. *)
Record Screen := mkScreen {
  feedback : list Feedback;
  surveys : list Survey;
  analytics : option Analytics;
  isLoading : bool;
  refreshing : bool;
  activeTab : Tab
}.

Definition initial : Screen := mkScreen [] [] None true false overview.

(** The calls of the component: its state setters, the alerts, the
    navigation, and the reads of the store. *)
Inductive Call :=
| setFeedback (l : list Feedback)
| setSurveys (l : list Survey)
| setAnalytics (a : option Analytics)
| setIsLoading (b : bool)
| setRefreshing (b : bool)
| setActiveTab (t : Tab)
| Alert_alert (title message : string)      (* Alert.alert(title, message) *)
| router_back                               (* router.back() *)
| users_get (uid : jsstring)                (* collection('users').doc(uid).get() *)
| feedback_get                              (* collection('feedback').orderBy('createdAt','desc').limit(50).get() *)
| surveys_get.                              (* collection('surveys').orderBy('createdAt','desc').limit(50).get() *)

Definition apply_call (c : Call) (s : Screen) : Screen :=
  match c with
  | setFeedback l =>
      mkScreen l (surveys s) (analytics s) (isLoading s) (refreshing s) (activeTab s)
  | setSurveys l =>
      mkScreen (feedback s) l (analytics s) (isLoading s) (refreshing s) (activeTab s)
  | setAnalytics a =>
      mkScreen (feedback s) (surveys s) a (isLoading s) (refreshing s) (activeTab s)
  | setIsLoading b =>
      mkScreen (feedback s) (surveys s) (analytics s) b (refreshing s) (activeTab s)
  | setRefreshing b =>
      mkScreen (feedback s) (surveys s) (analytics s) (isLoading s) b (activeTab s)
  | setActiveTab t =>
      mkScreen (feedback s) (surveys s) (analytics s) (isLoading s) (refreshing s) t
  | Alert_alert _ _ | router_back | users_get _ | feedback_get | surveys_get => s
  end.

(** [auth().currentUser] *)
Record User := mkUser {
  uid : jsstring;
  userEmail_ : option jsstring     (* user.email *)
}.

(** The fields of the user's profile the access check reads. *)
Record AdminData := mkAdminData {
  role : option jsstring;
  isSuperAdmin : option bool
}.

(** What the screen reads from outside: the session and the store.  The
    documents of the two collections come with their [createdAt]. *)
Record World := mkWorld {
  currentUser : option User;
  userDoc : option AdminData;              (* users/{uid}, when it exists *)
  feedbackCollection : list (Z * Feedback);
  surveysCollection : list (Z * Survey)
}.

Abbreviation Eff := (M Screen Call).
Abbreviation set := (set_state apply_call).

Local Open Scope eff_scope.

(** The awaited read settles: it consumes the next answer of the store. *)
Definition settle {A} (a : A) : Eff A :=
  fun m =>
    let ok := next_answer m in
    (if ok then Done a else Thrown,
     mkMachine (ui m) (tail (net m)) (trace m ++ [Settled ok])).

(** [await <read>] *)
Definition fetch {A} (c : Call) (a : A) : Eff A := set c ;; settle a.

(** [await Promise.all([c1, c2])]: both run to their end, whatever the other
    does; the whole throws when one of them throws.  The two are logged one
    after the other. *)
Definition both (c1 c2 : Eff unit) : Eff unit :=
  fun m =>
    match c1 m with
    | (r1, m1) =>
        match c2 m1 with
        | (r2, m2) =>
            (match r1, r2 with
             | Done _, Done _ => Done tt
             | _, _ => Thrown
             end, m2)
        end
    end.

Definition newer {A} (a b : Z * A) : Prop := fst b <= fst a.

#[global] Instance newer_dec {A} : RelDecision (@newer A).
Proof. intros a b. unfold newer. apply _. Defined.

(** [.orderBy('createdAt', 'desc').limit(50)] *)
Definition latest50 {A} (coll : list (Z * A)) : list A :=
  snd <$> take 50 (merge_sort newer coll).

Definition loadFeedback (w : World) : Eff unit :=
  feedbackData <- fetch feedback_get (latest50 (feedbackCollection w)) ;;
  set (setFeedback feedbackData).

Definition loadSurveys (w : World) : Eff unit :=
  surveysData <- fetch surveys_get (latest50 (surveysCollection w)) ;;
  set (setSurveys surveysData).

(** [calculateAnalytics()], as the closure of the render with state [s]: it
    reads the [feedback] and [surveys] of that render. *)
Definition calculateAnalytics_of (s : Screen) : Eff unit :=
  set (setAnalytics (Some (calculateAnalytics (feedback s) (surveys s)))).

(** [loadData], as the closure of the render with state [s]. *)
Definition loadData (w : World) (s : Screen) : Eff unit :=
  set (setIsLoading true) ;;
  try_finally
    (try_catch
       (both (loadFeedback w) (loadSurveys w) ;;
        calculateAnalytics_of s)
       (emit (ConsoleError "Error loading admin data:") ;;
        set (Alert_alert "Error" "Failed to load dashboard data.")))
    (set (setIsLoading false)).

(** [checkAdminAccess], as the closure of the render with state [s].  The
    read of the profile is outside any [try]. *)
Definition checkAdminAccess (w : World) (s : Screen) : Eff unit :=
  match currentUser w with
  | None =>
      set (Alert_alert "Access Denied" "You must be logged in to access this page.") ;;
      set router_back
  | Some user =>
      doc <- fetch (users_get (uid user)) (userDoc w) ;;
      let isSuperAdmin :=
        match doc with
        | Some userData =>
            bool_decide (role userData = Some (js "superadmin"))
            || bool_decide (isSuperAdmin userData = Some true)
        | None => false
        end in
      if negb isSuperAdmin
         && negb (bool_decide (userEmail_ user = Some (js "corner.e.learning@gmail.com")))
      then
        set (Alert_alert "Access Denied" "Only superadmin can access this dashboard.") ;;
        set router_back
      else loadData w s
  end.

Definition onRefresh (w : World) (s : Screen) : Eff unit :=
  set (setRefreshing true) ;;
  loadData w s ;;
  set (setRefreshing false).

(** What happens on the screen: it mounts, the user refreshes, or picks a
    tab. *)
Inductive Action :=
| Mount                      (* useEffect(() => { checkAdminAccess(); }, []) *)
| Refresh                    (* onPress={onRefresh} *)
| PickTab (t : Tab).         (* onPress={() => setActiveTab(t)} *)

Definition handler (w : World) (a : Action) (s : Screen) : Eff unit :=
  match a with
  | Mount => checkAdminAccess w s
  | Refresh => onRefresh w s
  | PickTab t => set (setActiveTab t)
  end.

Definition step (m : Machine Screen Call) (wa : World * Action) : Machine Screen Call :=
  exec (handler (fst wa) (snd wa) (ui m)) m.

Definition run (was : list (World * Action)) (m : Machine Screen Call)
  : Machine Screen Call :=
  fold_left step was m.

(** The answer of the store to the [n]-th request from now. *)
Definition answer (n : nat) (m : Machine Screen Call) : bool :=
  default true (net m !! n).

(** Whether the access check lets this session in. *)
Definition admin (w : World) : Prop :=
  exists user,
    currentUser w = Some user
    /\ ((exists d, userDoc w = Some d
                   /\ (role d = Some (js "superadmin") \/ isSuperAdmin d = Some true))
        \/ userEmail_ user = Some (js "corner.e.learning@gmail.com")).

(** The access check, once the profile is read: what it decides. *)
Definition lets_in (w : World) (user : User) : bool :=
  match userDoc w with
  | Some userData =>
      bool_decide (role userData = Some (js "superadmin"))
      || bool_decide (isSuperAdmin userData = Some true)
  | None => false
  end
  || bool_decide (userEmail_ user = Some (js "corner.e.learning@gmail.com")).

(** *** What the overview and the feedback tab render *)

(** The width, in percent, of the bar of [rating]:
    [analytics.totalFeedback > 0 ?
       (analytics.ratingDistribution[rating] / analytics.totalFeedback) * 100 : 0];
    [None] when it is not a number.  The quotient is exact. *)
Definition ratingBarWidth (a : Analytics) (rating : Z) : option Q :=
  if (0 <? totalFeedback a)%nat then
    match ratingDistribution a !! rating with
    | Some (Num n) =>
        Some (inject_Z n / inject_Z (Z.of_nat (totalFeedback a)) * 100)%Q
    | _ => None
    end
  else Some 0%Q.

(** The five icons of a feedback card:
    [[1, 2, 3, 4, 5].map(star => star <= item.rating ? "star" : "star-outline")] *)
Definition starIcons (item : Feedback) : list string :=
  (fun star => if star <=? rating item then "star" else "star-outline")
    <$> [1; 2; 3; 4; 5].

Definition filled (icons : list string) : Z :=
  Z.of_nat (length (List.filter (fun i => bool_decide (i = "star")) icons)).
End Dashboard.

(** ** The course list of the web client ([CourseDisplay]) *)

Module CourseDisplay.

(** A course as the REST API returns it; [createdAt] is
    [new Date(course.createdAt).getTime()], [None] when that is [NaN]. *)
Record Course := mkCourse {
  c_id : jsstring;                 (* course._id *)
  c_name : jsstring;               (* course.name *)
  c_code : option jsstring;        (* course.code *)
  teacherId : option jsstring;
  createdAt : option Z
}.

(** The error of a rejected request: [error.response?.status] and
    [error.message]. *)
Record AxiosError := mkAxiosError {
  status : option Z;
  message_ : jsstring
}.

Inductive Reply (A : Type) :=
| Resolved (data : A)
| Rejected (error : AxiosError).
Arguments Resolved {A} data.
Arguments Rejected {A} error.

(** [navigate(path, { state })] of [handleManageStudents]. *)
Record NavState := mkNavState {
  course : Course;
  courseName : jsstring;
  courseCode : jsstring
}.

(** The [useState] cells the handlers below read or write. *)
Record State := mkState {
  courses : list Course;
  message : jsstring;
  enrolledCourses : list Course;
  isModalOpen : bool;
  role : option jsstring;
  isStudent : bool;
  showActionMenu : bool;
  selectedCourse : option Course
}.

Definition initial : State := mkState [] [] [] false None false false None.

(** The calls of the component, in the order a handler makes them. *)
Inductive Call :=
| setCourses (l : list Course)
| setMessage (t : jsstring)
| setEnrolledCourses (l : list Course)
| setIsModalOpen (b : bool)
| setRole (r : option jsstring)
| setIsStudent (b : bool)
| setShowActionMenu (b : bool)
| setSelectedCourse (c : option Course)
| navigate (path : jsstring) (state : option NavState)
| axios_get (path : string) (token : jsstring)     (* Authorization: Bearer <token> *)
| axios_post_enroll (courseId : jsstring) (token : option jsstring)
| window_confirm (question : jsstring)
| console_log (label : string) (courseId : jsstring).

Definition apply_call (c : Call) (s : State) : State :=
  match c with
  | setCourses l =>
      mkState l (message s) (enrolledCourses s) (isModalOpen s) (role s) (isStudent s)
              (showActionMenu s) (selectedCourse s)
  | setMessage t =>
      mkState (courses s) t (enrolledCourses s) (isModalOpen s) (role s) (isStudent s)
              (showActionMenu s) (selectedCourse s)
  | setEnrolledCourses l =>
      mkState (courses s) (message s) l (isModalOpen s) (role s) (isStudent s)
              (showActionMenu s) (selectedCourse s)
  | setIsModalOpen b =>
      mkState (courses s) (message s) (enrolledCourses s) b (role s) (isStudent s)
              (showActionMenu s) (selectedCourse s)
  | setRole r =>
      mkState (courses s) (message s) (enrolledCourses s) (isModalOpen s) r (isStudent s)
              (showActionMenu s) (selectedCourse s)
  | setIsStudent b =>
      mkState (courses s) (message s) (enrolledCourses s) (isModalOpen s) (role s) b
              (showActionMenu s) (selectedCourse s)
  | setShowActionMenu b =>
      mkState (courses s) (message s) (enrolledCourses s) (isModalOpen s) (role s)
              (isStudent s) b (selectedCourse s)
  | setSelectedCourse c =>
      mkState (courses s) (message s) (enrolledCourses s) (isModalOpen s) (role s)
              (isStudent s) (showActionMenu s) c
  | navigate _ _ | axios_get _ _ | axios_post_enroll _ _ | window_confirm _
  | console_log _ _ => s
  end.

(** The state once the calls of a handler are made. *)
Definition after (calls : list Call) (s : State) : State :=
  fold_left (fun s c => apply_call c s) calls s.

(** What a handler reads from outside: the props, the browser storage and
    the answers of the REST API. *)
Record World := mkWorld {
  viewType : jsstring;                               (* the [viewType] prop *)
  localStorage : gmap jsstring jsstring;
  currentRole : option jsstring;                     (* getCurrentRole() *)
  studentReplies : Reply (option (list Course) * option (list Course));
    (* await Promise.all([get-all-courses, get-student-courses]), each reply by
       its [data.courses] *)
  teacherReply : Reply (option (list Course));       (* get-teacher-courses *)
  typeError : jsstring;
    (* the message of the TypeError of a method call on [undefined] *)
  enrollReply : Reply unit;                          (* enroll-in-courses *)
  confirms : bool                                    (* window.confirm(...) *)
}.

(** [localStorage.getItem(key)] *)
Definition getItem (w : World) (key : jsstring) : option jsstring :=
  localStorage w !! key.

(** A value that may be [null] is truthy. *)
Definition present (x : option jsstring) : bool :=
  match x with Some t => truthy t | None => false end.

(** [checkRole] *)
Definition checkRole (w : World) : list Call :=
  let studentToken := getItem w (js "studentToken") in
  let teacherToken := getItem w (js "teacherToken") in
  [ setRole (currentRole w);
    setIsStudent (bool_decide (currentRole w = Some (js "student")) && present studentToken) ]
  ++ (if negb (present studentToken) && negb (present teacherToken)
      then [navigate (js "/login") None] else []).

(** [getAuthToken]: [localStorage.getItem(`${role}Token`)] *)
Definition getAuthToken (w : World) (s : State) : option jsstring :=
  getItem w (default (js "null") (role s) ++ js "Token").

(** [!isNaN(new Date(course.createdAt).getTime())] *)
Definition dated (c : Course) : bool :=
  match createdAt c with Some _ => true | None => false end.

Definition time (c : Course) : Z := default 0 (createdAt c).

(** [.sort((a, b) => time(b) - time(a))], a stable sort: later courses first,
    courses of the same time in the order they had. *)
Fixpoint insert_newest_first (x : Course) (l : list Course) : list Course :=
  match l with
  | [] => [x]
  | y :: l' => if time y >? time x then y :: insert_newest_first x l' else x :: l
  end.

Definition newest_first (l : list Course) : list Course :=
  foldr insert_newest_first [] l.

(** [const sortedCourses = coursesData.filter(...).sort(...)] *)
Definition sortedCourses (coursesData : list Course) : list Course :=
  newest_first (List.filter dated coursesData).

(** [enrolledIds.has(course._id)] *)
Definition enrolled_in (enrolled : list Course) (c : Course) : bool :=
  bool_decide (c_id c ∈ c_id <$> enrolled).

(** The [catch] of [fetchCourses]. *)
Definition failedToLoad (error : AxiosError) : list Call :=
  (if bool_decide (status error = Some 401) then [navigate (js "/login") None] else [])
  ++ [setMessage (js "Failed to load courses. " ++ message_ error)].

(** [fetchCourses], as the closure of the render with state [s]. *)
Definition fetchCourses (w : World) (s : State) : list Call :=
  match getAuthToken w s, role s with
  | Some token, Some r =>
      if truthy token && truthy r then
        if isStudent s then
          [ axios_get "/corner/course/get-all-courses" token;
            axios_get "/corner/course/get-student-courses" token ]
          ++ match studentReplies w with
             | Rejected error => failedToLoad error
             | Resolved (allCourses, enrolledCourses) =>
                 if str_eqb (viewType w) (js "all") then
                   match enrolledCourses, allCourses with
                   | Some enrolled, Some all =>
                       let coursesData :=
                         List.filter (fun c => negb (enrolled_in enrolled c)) all in
                       [ setEnrolledCourses enrolled;
                         setCourses (sortedCourses coursesData) ]
                   | _, _ => failedToLoad (mkAxiosError None (typeError w))
                   end
                 else
                   let coursesData := default [] enrolledCourses in
                   [ setEnrolledCourses (default [] enrolledCourses);
                     setCourses (sortedCourses coursesData) ]
             end
        else
          [ axios_get "/corner/course/get-teacher-courses" token ]
          ++ match teacherReply w with
             | Rejected error => failedToLoad error
             | Resolved None => failedToLoad (mkAxiosError None (typeError w))
             | Resolved (Some coursesData) => [setCourses (sortedCourses coursesData)]
             end
      else []
  | _, _ => []
  end.

(** [handleEnrollment(courseId)] *)
Definition handleEnrollment (w : World) (s : State) (courseId : jsstring) : list Call :=
  axios_post_enroll courseId (getAuthToken w s)
  :: match enrollReply w with
     | Resolved _ =>
         setMessage (js "Successfully enrolled in the course!")
         :: (if str_eqb (viewType w) (js "all")
             then [navigate (js "/student-dashboard") None]
             else fetchCourses w s)
     | Rejected error =>
         [setMessage (js "Failed to enroll in the course: " ++ message_ error)]
     end.

Definition handleCourseAdded (w : World) (s : State) : list Call :=
  setIsModalOpen false :: fetchCourses w s.

Definition handleActionMenu (c : Course) : list Call :=
  [setSelectedCourse (Some c); setShowActionMenu true].

Definition handleCloseActionMenu : list Call :=
  [setShowActionMenu false; setSelectedCourse None].

(** [handleManageStudents]: it takes no argument and reads [selectedCourse]. *)
Definition handleManageStudents (s : State) : list Call :=
  match selectedCourse s with
  | Some selected =>
      handleCloseActionMenu
      ++ [navigate (js "/manage-students/" ++ c_id selected)
            (Some {| course := selected;
                     courseName := c_name selected;
                     courseCode := str_or (c_code selected) (js "N/A") |})]
  | None => []
  end.

Definition quoted (t : jsstring) : jsstring := [34%N] ++ t ++ [34%N].

Definition handleArchiveCourse (w : World) (s : State) : list Call :=
  match selectedCourse s with
  | Some selected =>
      handleCloseActionMenu
      ++ [window_confirm
            (js "Are you sure you want to archive " ++ quoted (c_name selected) ++ js "?")]
      ++ (if confirms w then [console_log "Archiving course:" (c_id selected)] else [])
  | None => []
  end.

Definition handleDeleteCourse (w : World) (s : State) : list Call :=
  match selectedCourse s with
  | Some selected =>
      handleCloseActionMenu
      ++ [window_confirm
            (js "Are you sure you want to delete " ++ quoted (c_name selected)
             ++ js "? This action cannot be undone.")]
      ++ (if confirms w then [console_log "Deleting course:" (c_id selected)] else [])
  | None => []
  end.

(** The buttons of a course card and of the action menu. *)
Inductive Click :=
| Enroll (c : Course)            (* onClick={() => handleEnrollment(course._id)} *)
| Students (c : Course)          (* onClick={() => handleManageStudents(course)} *)
| More (c : Course)              (* onClick={() => handleActionMenu(course)} *)
| CloseMenu                      (* onClick={handleCloseActionMenu} *)
| ManageStudents                 (* onClick={handleManageStudents} *)
| Archive                        (* onClick={handleArchiveCourse} *)
| Delete.                        (* onClick={handleDeleteCourse} *)

Definition click (w : World) (s : State) (k : Click) : list Call :=
  match k with
  | Enroll c => handleEnrollment w s (c_id c)
  | Students _ => handleManageStudents s
  | More c => handleActionMenu c
  | CloseMenu => handleCloseActionMenu
  | ManageStudents => handleManageStudents s
  | Archive => handleArchiveCourse w s
  | Delete => handleDeleteCourse w s
  end.


(** A call that talks to the REST API. *)
Definition is_request (c : Call) : bool :=
  match c with
  | axios_get _ _ | axios_post_enroll _ _ => true
  | _ => false
  end.

(** The list is in the order the screen shows it: later courses first. *)
Definition newest_first_order (a b : Course) : Prop := time b <= time a.
End CourseDisplay.

(** ** More sample data *)

Module MoreSamples.
Import Conversation.

(** Alice deletes her message to Bob, after a long press on his that does
    nothing. *)
Definition removing : list (World * Action) :=
  [(Samples.withBob, Load); (Samples.withBob, LongPress Samples.bobToAlice);
   (Samples.withBob, LongPress Samples.aliceToBob); (Samples.withBob, PressDelete);
   (Samples.withBob, PressAlertButton 1)].

(** The account with the address the access check knows, a visitor, and the
    dashboard as each of them opens it; the store holds two feedback
    records. *)
Definition root : Dashboard.User :=
  Dashboard.mkUser (js "root") (Some (js "corner.e.learning@gmail.com")).

Definition visitor : Dashboard.User :=
  Dashboard.mkUser (js "visitor") (Some (js "visitor@example.com")).

Definition dashboardOf (user : Dashboard.User) : Dashboard.World :=
  Dashboard.mkWorld (Some user) None
    [(3, AdminDashboard.mkFeedback (js "f2") 5 [] [] []);
     (1, AdminDashboard.mkFeedback (js "f1") 4 [] [] [])]
    [].

(** A student with a token, the catalogue and what she is enrolled in. *)
Definition algebra : CourseDisplay.Course :=
  CourseDisplay.mkCourse (js "c1") (js "Algebra") None (Some (js "t1")) (Some 100).
Definition biology : CourseDisplay.Course :=
  CourseDisplay.mkCourse (js "c2") (js "Biology") (Some (js "BIO")) (Some (js "t2")) (Some 300).
Definition chemistry : CourseDisplay.Course :=
  CourseDisplay.mkCourse (js "c3") (js "Chemistry") None None None.
Definition drawing : CourseDisplay.Course :=
  CourseDisplay.mkCourse (js "c4") (js "Drawing") None (Some (js "t1")) (Some 200).

Definition student : CourseDisplay.State :=
  CourseDisplay.mkState [] [] [] false (Some (js "student")) true false None.

Definition catalogue : CourseDisplay.World :=
  {| CourseDisplay.viewType := js "all";
     CourseDisplay.localStorage := {[ js "studentToken" := js "secret" ]};
     CourseDisplay.currentRole := Some (js "student");
     CourseDisplay.studentReplies :=
       CourseDisplay.Resolved (Some [algebra; biology; chemistry; drawing], Some [biology]);
     CourseDisplay.teacherReply := CourseDisplay.Resolved None;
     CourseDisplay.typeError := js "Cannot read properties of undefined";
     CourseDisplay.enrollReply := CourseDisplay.Resolved tt;
     CourseDisplay.confirms := true |}.

(** The session of the student has expired. *)
Definition expired : CourseDisplay.World :=
  {| CourseDisplay.viewType := js "all";
     CourseDisplay.localStorage := {[ js "studentToken" := js "secret" ]};
     CourseDisplay.currentRole := Some (js "student");
     CourseDisplay.studentReplies :=
       CourseDisplay.Rejected
         (CourseDisplay.mkAxiosError (Some 401) (js "Request failed with status code 401"));
     CourseDisplay.teacherReply := CourseDisplay.Resolved None;
     CourseDisplay.typeError := js "Cannot read properties of undefined";
     CourseDisplay.enrollReply := CourseDisplay.Resolved tt;
     CourseDisplay.confirms := true |}.

(** The role says student, but only a teacher token is stored. *)
Definition mismatched : CourseDisplay.World :=
  {| CourseDisplay.viewType := js "all";
     CourseDisplay.localStorage := {[ js "teacherToken" := js "secret" ]};
     CourseDisplay.currentRole := Some (js "student");
     CourseDisplay.studentReplies := CourseDisplay.Resolved (Some [algebra], Some []);
     CourseDisplay.teacherReply := CourseDisplay.Resolved (Some [algebra]);
     CourseDisplay.typeError := js "Cannot read properties of undefined";
     CourseDisplay.enrollReply := CourseDisplay.Resolved tt;
     CourseDisplay.confirms := true |}.

(** A teacher whose courses come back without a list. *)
Definition teacher : CourseDisplay.State :=
  CourseDisplay.mkState [algebra] [] [] false (Some (js "teacher")) false false None.

Definition incomplete : CourseDisplay.World :=
  {| CourseDisplay.viewType := js "all";
     CourseDisplay.localStorage := {[ js "teacherToken" := js "secret" ]};
     CourseDisplay.currentRole := Some (js "teacher");
     CourseDisplay.studentReplies := CourseDisplay.Resolved (None, None);
     CourseDisplay.teacherReply := CourseDisplay.Resolved None;
     CourseDisplay.typeError := js "Cannot read properties of undefined";
     CourseDisplay.enrollReply := CourseDisplay.Resolved tt;
     CourseDisplay.confirms := true |}.

Definition dashboardBoot (answers : list bool)
  : Machine Dashboard.Screen Dashboard.Call :=
  mkMachine Dashboard.initial answers [].
End MoreSamples.
(** * Properties *)

(** A decidable property of closed terms is refuted by evaluation. *)
Ltac refute_by_evaluation :=
  lazymatch goal with
  | |- ~ ?P => apply (bool_decide_eq_false_1 P); vm_compute; reflexivity
  | |- ?P -> False => apply (bool_decide_eq_false_1 P); vm_compute; reflexivity
  end.

(** ** Strings *)

Lemma trim_start_blank s : blank s -> trim_start s = [].
Proof.
  induction 1 as [|c s Hc _ IH]; simpl; [done|]. by rewrite Hc.
Qed.

Lemma trim_start_nil_blank s : trim_start s = [] -> blank s.
Proof.
  induction s as [|c s IH]; simpl; [constructor|].
  destruct (is_white_space c) eqn:Hc; [|done].
  intros H. constructor; [exact Hc | exact (IH H)].
Qed.

(** What [trim_start] returns does not start with white space. *)
Lemma trim_start_head s c r : trim_start s = c :: r -> is_white_space c = false.
Proof.
  induction s as [|x s IH]; simpl; [done|].
  destruct (is_white_space x) eqn:Hx; [done|].
  intros [= <- _]. done.
Qed.

Lemma blank_reverse s : blank (reverse s) <-> blank s.
Proof. unfold blank. by rewrite Forall_reverse. Qed.

(** [!s.trim()] holds exactly for the blank texts. *)
Lemma trim_falsy_iff_blank s : truthy (trim s) = false <-> blank s.
Proof.
  unfold trim, trim_end. split.
  - intros H.
    assert (Hnil : trim_start (reverse (trim_start s)) = []).
    { destruct (trim_start (reverse (trim_start s))) as [|x r] eqn:E; [done|].
      rewrite reverse_cons in H. destruct (reverse r ++ [x]) eqn:E'; [|done].
      by apply app_eq_nil in E' as [_ ?]. }
    apply trim_start_nil_blank in Hnil. rewrite blank_reverse in Hnil.
    destruct (trim_start s) as [|c r] eqn:E.
    + by apply trim_start_nil_blank.
    + apply trim_start_head in E.
      apply Forall_cons in Hnil as [Hc _]. simpl in Hc. congruence.
  - intros H. by rewrite (trim_start_blank s H).
Qed.

Lemma trim_truthy_iff_not_blank s : truthy (trim s) = true <-> ~ blank s.
Proof.
  rewrite <- trim_falsy_iff_blank. destruct (truthy (trim s)); naive_solver.
Qed.

Lemma str_eqb_eq a b : str_eqb a b = true <-> a = b.
Proof. unfold str_eqb. by rewrite bool_decide_eq_true. Qed.

Lemma str_leb_total a b : str_leb a b = true \/ str_leb b a = true.
Proof.
  revert b. induction a as [|x a IH]; intros [|y b]; simpl; auto.
  destruct (N.ltb_spec x y), (N.ltb_spec y x), (N.eqb_spec x y), (N.eqb_spec y x);
    auto; lia.
Qed.

Lemma str_leb_trans a b c :
  str_leb a b = true -> str_leb b c = true -> str_leb a c = true.
Proof.
  revert b c. induction a as [|x a IH]; intros [|y b] [|z c]; simpl; try done.
  destruct (N.ltb_spec x y), (N.ltb_spec y z), (N.ltb_spec x z),
    (N.eqb_spec x y), (N.eqb_spec y z), (N.eqb_spec x z);
    try done; try lia; eauto.
Qed.

(** ** Loading a conversation *)

Lemma StronglySorted_list_filter {A} (R : relation A) (p : A -> bool) l :
  StronglySorted R l -> StronglySorted R (List.filter p l).
Proof.
  induction 1 as [|x l _ IH Hx]; simpl; [constructor|].
  destruct (p x); [|done]. constructor; [done|].
  rewrite Forall_forall in *. intros y Hy.
  apply Hx. rewrite list_elem_of_In in *. by apply filter_In in Hy as [? _].
Qed.

Module ConversationFacts.
Import Conversation.

#[local] Instance timestamp_le_total : Total timestamp_le.
Proof. intros a b. apply str_leb_total. Qed.

#[local] Instance timestamp_le_trans : Transitive timestamp_le.
Proof. intros a b c. apply str_leb_trans. Qed.

Lemma messagesQuery_sorted userId other coll :
  StronglySorted timestamp_le (messagesQuery userId other coll).
Proof. apply StronglySorted_merge_sort; apply _. Qed.

(** The loop never throws, leaves the state alone, returns the documents
    between the two users in the order of the query, and asks for no
    edit. *)
Lemma loadMessages_loop_result userId other docs : forall acc m,
  exists m' evs,
    loadMessages_loop userId other docs acc m
    = (Done (acc ++ (message_of_doc <$>
               List.filter (fun d => between userId other (doc_data d)) docs)), m')
    /\ ui m' = ui m
    /\ trace m' = trace m ++ evs
    /\ Forall (fun e => edit_target e = None) evs.
Proof.
  induction docs as [|d docs IH]; intros acc m; simpl.
  - exists m, []. by rewrite !app_nil_r.
  - destruct (between userId other (doc_data d)); [|apply IH].
    unfold bind.
    destruct (str_eqb (d_receiverId (doc_data d)) userId
              && negb (default false (d_read (doc_data d)))).
    + unfold try_catch, await, emit.
      destruct (next_answer m); simpl.
      * edestruct IH as (m' & evs & -> & Hui & Htr & Hev).
        exists m', ([Request (MessagesUpdateRead (doc_id d)); Settled true] ++ evs).
        rewrite Hui, Htr. simpl. rewrite <- !app_assoc. split_and!; try done.
        by repeat constructor.
      * edestruct IH as (m' & evs & -> & Hui & Htr & Hev).
        exists m', ([Request (MessagesUpdateRead (doc_id d)); Settled false;
                     ConsoleError "Error marking message as read:"] ++ evs).
        rewrite Hui, Htr. simpl. rewrite <- !app_assoc. split_and!; try done.
        by repeat constructor.
    + simpl. edestruct IH as (m' & evs & -> & Hui & Htr & Hev).
      exists m', evs. rewrite <- app_assoc. by split_and!.
Qed.

Lemma loadMessages_resolved w userId m :
  next_answer m = true ->
  messages (ui (exec (loadMessages w userId) m))
  = message_of_doc <$>
      List.filter (fun d => between userId (otherUserId w) (doc_data d))
        (messagesQuery userId (otherUserId w) (messagesCollection w)).
Proof.
  intros Hok. unfold exec, loadMessages, try_catch, bind, await. rewrite Hok.
  by edestruct loadMessages_loop_result as (m' & evs & -> & Hui & _).
Qed.

Lemma loadMessages_rejected w userId m :
  next_answer m = false -> ui (exec (loadMessages w userId) m) = ui m.
Proof.
  intros Hko. unfold exec, loadMessages, try_catch, bind, await. by rewrite Hko.
Qed.

Lemma between_of_pair userId other d :
  between userId other (doc_data d) = true -> of_pair userId other (message_of_doc d).
Proof.
  unfold between, of_pair. simpl.
  rewrite orb_true_iff, !andb_true_iff, !str_eqb_eq. naive_solver.
Qed.

(** C2 (amended).  After a load whose query the store answers, the local
    list holds only messages between the current user and [otherUserId]
    (what else the query lets through is dropped) and is in non-decreasing
    order of timestamp; when the query is rejected the list stays as it
    was. *)
Theorem loadMessages_lists_the_conversation w userId m :
  let l := messages (ui (exec (loadMessages w userId) m)) in
  (next_answer m = true -> conversation_listed userId (otherUserId w) l)
  /\ (next_answer m = false -> l = messages (ui m)).
Proof.
  intros l. split; intros Hnet.
  - subst l. rewrite (loadMessages_resolved _ _ _ Hnet). split.
    + apply Forall_fmap, Forall_forall. intros d Hd.
      rewrite list_elem_of_In in Hd. apply filter_In in Hd as [_ Hd].
      by apply between_of_pair.
    + apply StronglySorted_fmap with (R1 := timestamp_le); [done|].
      apply StronglySorted_list_filter, messagesQuery_sorted.
  - subst l. by rewrite (loadMessages_rejected _ _ _ Hnet).
Qed.

Lemma loadMessages_lists_the_conversation_witness :
  conversation_listed Samples.alice Samples.bob
    (messages (ui (exec (loadMessages Samples.withBob Samples.alice) (Samples.boot [])))).
Proof.
  exact (proj1 (loadMessages_lists_the_conversation
                  Samples.withBob Samples.alice (Samples.boot [])) eq_refl).
Defined.

(** C2 as stated fails: Alice opens her conversation with Carol, the route
    changes to Bob and the query of the second load is rejected; the list
    still shows the message to Carol. *)
Lemma load_rejected_keeps_other_conversation :
  ~ conversation_listed Samples.alice (otherUserId Samples.withBob)
      (messages (ui (run [(Samples.withCarol, Load); (Samples.withBob, Load)]
                         (Samples.boot [true; true; true; false])))).
Proof.
  intros [H _]. revert H. refute_by_evaluation.
Qed.

(** *** Sending *)

Lemma handleSendMessage_trace w m uid profile :
  ~ blank (newMessage (ui m)) ->
  userData (ui m) = Some profile ->
  currentUser w = Some uid ->
  let d := messageData w (ui m) uid profile in
  trace (exec (handleSendMessage w (ui m)) m)
  = trace m ++
    if next_answer m then
      [ Local (setSending true); Request (MessagesAdd d); Settled true;
        Local (setMessages_append (newMessageObj w d)); Local (setNewMessage []);
        ScrollToEnd; Local (setSending false) ]
    else
      [ Local (setSending true); Request (MessagesAdd d); Settled false;
        ConsoleError "Error sending message:";
        Local (setAlertConfig
                 (Some (errorAlert "Failed to send message. Please try again.")));
        Local (setSending false) ].
Proof.
  intros Hnb Hud Hu d. apply trim_truthy_iff_not_blank in Hnb.
  unfold exec, handleSendMessage. rewrite Hud, Hnb, Hu.
  unfold try_finally, try_catch, bind, set_state, await, emit, next_answer. simpl.
  destruct (net m) as [|[] ?]; simpl; by rewrite <- !app_assoc.
Qed.

Lemma handleSendMessage_messages w m uid profile :
  ~ blank (newMessage (ui m)) ->
  userData (ui m) = Some profile ->
  currentUser w = Some uid ->
  messages (ui (exec (handleSendMessage w (ui m)) m))
  = if next_answer m
    then messages (ui m) ++ [newMessageObj w (messageData w (ui m) uid profile)]
    else messages (ui m).
Proof.
  intros Hnb Hud Hu. apply trim_truthy_iff_not_blank in Hnb.
  unfold exec, handleSendMessage. rewrite Hud, Hnb, Hu.
  unfold try_finally, try_catch, bind, set_state, await, emit, next_answer. simpl.
  by destruct (net m) as [|[] ?].
Qed.

(** C1 (amended).  For a text that is not blank, a loaded profile and a
    signed-in user, send issues exactly one create request, with the trimmed
    text and the read flag false; when the store accepts it, exactly one
    entry is appended to the end of the list, and when the store rejects it
    the list is unchanged. *)
Theorem handleSendMessage_creates_then_appends w m uid profile :
  ~ blank (newMessage (ui m)) ->
  userData (ui m) = Some profile ->
  currentUser w = Some uid ->
  let m' := exec (handleSendMessage w (ui m)) m in
  created_one m m'
  /\ (next_answer m = true ->
      exists e, messages (ui m') = messages (ui m) ++ [e]
                /\ content e = trim (newMessage (ui m)) /\ read e = false)
  /\ (next_answer m = false -> messages (ui m') = messages (ui m)).
Proof.
  intros Hnb Hud Hu m'. subst m'. split; [|split].
  - exists (messageData w (ui m) uid profile). split; [|done].
    unfold new_events. rewrite (handleSendMessage_trace w m uid profile) by done.
    rewrite drop_app_length. by destruct (next_answer m).
  - intros Hok. rewrite (handleSendMessage_messages w m uid profile) by done.
    rewrite Hok. by eexists.
  - intros Hko. rewrite (handleSendMessage_messages w m uid profile) by done.
    by rewrite Hko.
Qed.

Lemma handleSendMessage_creates_then_appends_witness :
  created_one (Samples.typed [])
    (exec (handleSendMessage Samples.withBob (ui (Samples.typed []))) (Samples.typed [])).
Proof.
  refine (proj1 (handleSendMessage_creates_then_appends
                   Samples.withBob (Samples.typed []) Samples.alice Samples.aliceProfile
                   _ eq_refl eq_refl)).
  refute_by_evaluation.
Defined.

(** C1 as stated fails: with a text that is not blank and a loaded profile,
    nothing is appended when the store rejects the create request, and
    nothing is requested nor appended when nobody is signed in. *)
Lemma send_rejected_or_signed_out :
  let rejected := Samples.typed [true; true; true; false] in
  let accepted := Samples.typed [] in
  ~ blank (newMessage (ui rejected))
  /\ is_Some (userData (ui rejected))
  /\ ~ appended_one rejected
         (exec (handleSendMessage Samples.withBob (ui rejected)) rejected)
  /\ ~ created_one accepted
         (exec (handleSendMessage Samples.signedOut (ui accepted)) accepted).
Proof.
  split; [|split; [|split]].
  - refute_by_evaluation.
  - by eexists.
  - intros [e He]. vm_compute in He. congruence.
  - intros (d & Hd & _). vm_compute in Hd. discriminate.
Qed.

(** C6 (amended).  In the effects of send the create request is confirmed
    before the list changes: the local append comes after a positive
    confirmation, and there is none after a negative one. *)
Theorem handleSendMessage_appends_after_confirmation w m uid profile :
  ~ blank (newMessage (ui m)) ->
  userData (ui m) = Some profile ->
  currentUser w = Some uid ->
  let tr := new_events m (exec (handleSendMessage w (ui m)) m) in
  exists j, position is_confirmation tr = Some j
    /\ (next_answer m = true ->
        exists i, position is_append tr = Some i /\ (j < i)%nat)
    /\ (next_answer m = false -> position is_append tr = None).
Proof.
  intros Hnb Hud Hu tr. subst tr. unfold new_events.
  rewrite (handleSendMessage_trace w m uid profile) by done.
  rewrite drop_app_length. exists 2%nat.
  destruct (next_answer m); simpl; split; try done; split; try done.
  intros _. exists 3%nat. split; [done | lia].
Qed.

Lemma handleSendMessage_appends_after_confirmation_witness :
  exists j,
    position is_confirmation
      (new_events (Samples.typed [])
         (exec (handleSendMessage Samples.withBob (ui (Samples.typed [])))
               (Samples.typed []))) = Some j.
Proof.
  destruct (handleSendMessage_appends_after_confirmation
              Samples.withBob (Samples.typed []) Samples.alice Samples.aliceProfile)
    as (j & Hj & _).
  - refute_by_evaluation.
  - reflexivity.
  - reflexivity.
  - exists j. exact Hj.
Defined.

(** C6 as stated fails: when Alice sends, the confirmation of the store is
    the third effect and the append the fourth. *)
Lemma send_appends_after_confirmation :
  ~ append_before_confirmation
      (new_events (Samples.typed [])
         (exec (handleSendMessage Samples.withBob (ui (Samples.typed [])))
               (Samples.typed []))).
Proof.
  intros (i & j & Hi & Hj & Hlt). vm_compute in Hi, Hj.
  injection Hi as <-. injection Hj as <-. lia.
Qed.

(** *** Blank texts *)

(** C7.  With an empty or white-space-only text, send and edit do nothing:
    no request, no setter call, the state as it was. *)
Theorem blank_text_is_ignored w s m :
  (blank (newMessage s) -> handleSendMessage w s m = (Done tt, m))
  /\ (blank (editText s) -> handleSaveEdit w s m = (Done tt, m)).
Proof.
  split; intros Hb; apply trim_falsy_iff_blank in Hb.
  - unfold handleSendMessage. rewrite Hb. by destruct (userData s).
  - unfold handleSaveEdit. rewrite Hb. by destruct (editingMessage s).
Qed.

Lemma blank_text_is_ignored_witness :
  handleSendMessage Samples.withBob (ui Samples.blanked) Samples.blanked
  = (Done tt, Samples.blanked)
  /\ handleSaveEdit Samples.withBob (ui Samples.blanked) Samples.blanked
     = (Done tt, Samples.blanked).
Proof.
  split.
  - apply (proj1 (blank_text_is_ignored
                    Samples.withBob (ui Samples.blanked) Samples.blanked)).
    vm_compute. repeat constructor.
  - apply (proj2 (blank_text_is_ignored
                    Samples.withBob (ui Samples.blanked) Samples.blanked)).
    vm_compute. repeat constructor.
Defined.

(** *** Deleting *)

Lemma pressAlert_confirmDelete selected m :
  let m' := exec (pressAlert (confirmDelete selected)) m in
  requests (new_events m m') = [MessagesDelete (id selected)]
  /\ messages (ui m') = messages (ui m).
Proof.
  unfold new_events, exec, pressAlert, try_catch, bind, set_state, await, emit,
    next_answer.
  destruct (net m) as [|[] ?]; simpl; rewrite <- ?app_assoc, drop_app_length; done.
Qed.

(** C3, at a run of the screen: Alice confirms the deletion of her message
    to Bob and the store deletes it.  One delete request is issued, for that
    message, but it is still in the list. *)
Lemma confirmed_delete_leaves_message_listed :
  let before := Samples.deleting in
  let after := step before (Samples.withBob, PressAlertButton 1) in
  selectedMessage (ui before) = Some Samples.aliceToBob
  /\ requests (new_events before after) = [MessagesDelete (id Samples.aliceToBob)]
  /\ In (Settled true) (new_events before after)
  /\ In Samples.aliceToBob (messages (ui after)).
Proof. vm_compute. split_and!; auto. Qed.
End ConversationFacts.

(** ** Editing *)

Module EditFacts.
Import Conversation ConversationFacts.


(** The events a handler adds, when it adds them at the end of the trace. *)
Ltac added_events :=
  first
    [ by exists []; rewrite app_nil_r
    | eexists; split;
      [ rewrite <- ?app_assoc; reflexivity
      | repeat first [apply Forall_nil_2 | apply Forall_cons_2]; simpl; try done ] ].

(** No edit is asked for by a list of events. *)
Ltac no_edit :=
  repeat first [apply Forall_nil_2 | apply Forall_cons_2 | apply Forall_app_2];
  simpl; done.

(** [loadMessages] selects nothing, edits nothing and asks for no edit. *)
Lemma loadMessages_edit w userId m :
  exists m' evs,
    loadMessages w userId m = (Done tt, m')
    /\ selectedMessage (ui m') = selectedMessage (ui m)
    /\ editingMessage (ui m') = editingMessage (ui m)
    /\ trace m' = trace m ++ evs
    /\ Forall (fun e => edit_target e = None) evs.
Proof.
  unfold loadMessages, try_catch, bind, await, emit, set_state.
  destruct (next_answer m); simpl.
  - edestruct loadMessages_loop_result as (m' & evs & -> & Hui & Htr & Hev).
    eexists _, ([Request (MessagesQuery userId (otherUserId w)); Settled true]
                ++ evs ++ [Local (setMessages _); ScrollToEnd]).
    split; [reflexivity|]. simpl. rewrite Hui, Htr. simpl.
    rewrite <- !app_assoc. split_and!; [done..|]. no_edit.
  - eexists _, [Request (MessagesQuery userId (otherUserId w)); Settled false;
                ConsoleError "Error loading messages:"].
    split; [reflexivity|]. simpl. rewrite <- !app_assoc.
    split_and!; [done..|]. no_edit.
Qed.

(** Neither does [loadUserAndMessages]. *)
Lemma loadUserAndMessages_edit w m :
  let m' := exec (loadUserAndMessages w) m in
  selectedMessage (ui m') = selectedMessage (ui m)
  /\ editingMessage (ui m') = editingMessage (ui m)
  /\ exists evs, trace m' = trace m ++ evs
                 /\ Forall (fun e => edit_target e = None) evs.
Proof.
  unfold exec, loadUserAndMessages, try_finally, try_catch, bind, await, emit,
    set_state, ret.
  destruct (currentUser w) as [uid|]; simpl.
  2: { split_and!; [done..|]. eexists; split; [reflexivity|]. no_edit. }
  destruct (next_answer m); simpl.
  - destruct (usersDoc w) as [data|]; simpl.
    + edestruct (loadMessages_edit w uid) as (m' & evs & -> & Hs & He & Htr & Hev).
      simpl. rewrite Hs, He, Htr. simpl. split_and!; [done..|].
      eexists ([Request (UsersGet uid); Settled true; Local (setUserData (Some data))]
               ++ evs ++ [Local (setLoading false)]).
      rewrite <- !app_assoc. split; [done|]. no_edit.
    + edestruct (loadMessages_edit w uid) as (m' & evs & -> & Hs & He & Htr & Hev).
      simpl. rewrite Hs, He, Htr. simpl. split_and!; [done..|].
      eexists ([Request (UsersGet uid); Settled true] ++ evs ++ [Local (setLoading false)]).
      rewrite <- !app_assoc. split; [done|]. no_edit.
  - split_and!; [done..|].
    eexists. rewrite <- !app_assoc. split; [reflexivity|]. no_edit.
Qed.

(** One turn of the loop: which message can become the selected one, which
    the edited one, and which document an edit request names. *)
Lemma step_edit w a m :
  let m' := step m (w, a) in
  (selectedMessage (ui m') = selectedMessage (ui m)
   \/ selectedMessage (ui m') = None
   \/ exists msg, a = LongPress msg /\ currentUser w = Some (senderId msg)
                  /\ selectedMessage (ui m') = Some msg)
  /\ (editingMessage (ui m') = editingMessage (ui m)
      \/ editingMessage (ui m') = None
      \/ editingMessage (ui m') = selectedMessage (ui m))
  /\ exists evs,
       trace m' = trace m ++ evs
       /\ Forall (fun e => forall docId, edit_target e = Some docId ->
                    exists x, editingMessage (ui m) = Some x /\ id x = docId) evs.
Proof.
  destruct a; unfold step; cbn [fst snd handler].
  - (* Load *)
    destruct (loadUserAndMessages_edit w m) as (Hs & He & evs & Htr & Hev).
    split_and!; [by left | by left |].
    exists evs. split; [done|].
    eapply Forall_impl; [exact Hev|]. simpl. intros e -> ?. done.
  - (* TypeMessage *)
    split_and!; [by left | by left | added_events].
  - (* PressSend *)
    unfold exec, handleSendMessage, try_finally, try_catch, bind, set_state,
      await, emit, ret, next_answer.
    destruct (userData (ui m)); [|split_and!; [by left | by left | added_events]].
    destruct (truthy (trim (newMessage (ui m))));
      [|split_and!; [by left | by left | added_events]].
    destruct (currentUser w); simpl;
      [destruct (net m) as [|[] ?]; simpl|];
      (split_and!; [by left | by left | added_events]).
  - (* LongPress *)
    unfold exec, handleLongPress, bind, set_state, ret.
    destruct (currentUser w) as [uid|] eqn:Hu;
      [|split_and!; [by left | by left | added_events]].
    destruct (str_eqb (senderId m0) uid) eqn:Heq; simpl;
      [|split_and!; [by left | by left | added_events]].
    apply str_eqb_eq in Heq as <-.
    split_and!; [right; right; by exists m0 | by left | added_events].
  - (* CloseActionSheet *)
    split_and!; [by left | by left | added_events].
  - (* PressEdit *)
    unfold exec, handleEditMessage, bind, set_state, ret.
    destruct (selectedMessage (ui m)) as [sel|] eqn:Hsel; simpl; rewrite ?Hsel;
      (split_and!; [by left | auto | added_events]).
  - (* PressDelete *)
    unfold exec, handleDeleteMessage, bind, set_state, ret.
    destruct (selectedMessage (ui m)) as [sel|] eqn:Hsel; simpl; rewrite ?Hsel;
      (split_and!; [by left | by left | added_events]).
  - (* PressAlertButton *)
    unfold exec, pressAlert, try_catch, bind, set_state, await, emit, ret, next_answer.
    destruct (alertConfig (ui m)) as [alert|];
      [|split_and!; [by left | by left | added_events]].
    destruct (actions alert !! i) as [[? [|sel] ?]|]; simpl;
      [ | destruct (net m) as [|[] ?]; simpl | ];
      (split_and!; [auto | by left | added_events]).
  - (* DismissAlert *)
    split_and!; [by left | by left | added_events].
  - (* TypeEdit *)
    split_and!; [by left | by left | added_events].
  - (* PressSave *)
    unfold exec, handleSaveEdit, try_catch, bind, set_state, await, emit, ret,
      next_answer.
    destruct (editingMessage (ui m)) as [editing|] eqn:Hed;
      [|split_and!; [by left | by left | added_events]].
    destruct (truthy (trim (editText (ui m))));
      [|split_and!; [by left | by left | added_events]].
    destruct (net m) as [|[] ?]; simpl; rewrite ?Hed;
      (split_and!; [by left | auto | added_events]);
      intros ? [= <-]; by eexists.
  - (* PressCancelEdit *)
    unfold exec, handleCancelEdit, bind, set_state. simpl.
    split_and!; [by left | auto | added_events].
Qed.

Lemma run_snoc was wa m : run (was ++ [wa]) m = step (run was m) wa.
Proof. unfold run. by rewrite fold_left_app. Qed.

(** What every run keeps true under the session of [uid]: the selected
    message, the edited message and the target of every edit request are
    messages the user has long-pressed and has sent. *)
Lemma run_edit_invariant uid net was :
  session uid was ->
  let m := run was (mkMachine initial net []) in
  let own x := In (LongPress x) (snd <$> was) /\ senderId x = uid in
  (forall x, selectedMessage (ui m) = Some x -> own x)
  /\ (forall x, editingMessage (ui m) = Some x -> own x)
  /\ (forall e docId, In e (trace m) -> edit_target e = Some docId ->
        exists x, own x /\ id x = docId).
Proof.
  induction was as [|[w a] was IH] using rev_ind; intros Hses.
  - simpl. split_and!; [done | done | intros ? ? []].
  - apply Forall_app in Hses as [Hses Hwa].
    rewrite Forall_singleton in Hwa. simpl in Hwa.
    specialize (IH Hses). simpl in IH. destruct IH as (IHs & IHe & IHt).
    rewrite run_snoc. simpl.
    assert (Hmono : forall x,
               In (LongPress x) (snd <$> was) /\ senderId x = uid ->
               In (LongPress x) (snd <$> was ++ [(w, a)]) /\ senderId x = uid).
    { intros x [Hin ?]. split; [|done]. rewrite fmap_app. apply in_or_app. by left. }
    destruct (step_edit w a (run was (mkMachine initial net [])))
      as (Hs & He & evs & Htr & Hev).
    split_and!.
    + intros x Hx. destruct Hs as [Hs | [Hs | (msg & -> & Hu & Hs)]].
      * apply Hmono, IHs. congruence.
      * congruence.
      * assert (x = msg) as -> by congruence.
        split; [|by apply Hwa].
        rewrite fmap_app. apply in_or_app. right. by left.
    + intros x Hx. destruct He as [He | [He | He]].
      * apply Hmono, IHe. congruence.
      * congruence.
      * apply Hmono, IHs. congruence.
    + intros e docId Hin Htarget. rewrite Htr in Hin.
      apply in_app_or in Hin as [Hin | Hin].
      * destruct (IHt e docId Hin Htarget) as (x & Hx & ?). exists x. auto.
      * rewrite Forall_forall in Hev. rewrite <- list_elem_of_In in Hin.
        destruct (Hev e Hin docId Htarget) as (x & Hx & ?).
        exists x. split; [|done]. by apply Hmono, IHe.
Qed.

(** C8.  A long press on a message that the current user has not sent
    changes nothing: the message is not selected and the action sheet does
    not open.  And in every run of the screen under one session, an edit
    update is only ever requested for a message the user has long-pressed
    and has sent. *)
Theorem edit_only_by_sender :
  (forall w msg m,
      currentUser w <> Some (senderId msg) ->
      handleLongPress w msg m = (Done tt, m))
  /\ (forall uid was net e docId,
        session uid was ->
        In e (trace (run was (mkMachine initial net []))) ->
        edit_target e = Some docId ->
        exists x, In (LongPress x) (snd <$> was) /\ senderId x = uid /\ id x = docId).
Proof.
  split.
  - intros w msg m Hne. unfold handleLongPress.
    destruct (currentUser w) as [uid|]; [|done].
    destruct (str_eqb (senderId msg) uid) eqn:Heq; [|done].
    apply str_eqb_eq in Heq. congruence.
  - intros uid was net e docId Hses Hin Htarget.
    destruct (run_edit_invariant uid net was Hses) as (_ & _ & Ht).
    destruct (Ht e docId Hin Htarget) as (x & [? ?] & ?). by exists x.
Qed.

Lemma edit_only_by_sender_witness :
  handleLongPress Samples.withBob Samples.bobToAlice (Samples.boot [])
  = (Done tt, Samples.boot [])
  /\ exists x, In (LongPress x) (snd <$> Samples.editing)
               /\ senderId x = Samples.alice /\ id x = js "m2".
Proof.
  split.
  - apply (proj1 edit_only_by_sender). by vm_compute.
  - apply (proj2 edit_only_by_sender Samples.alice Samples.editing []
             (Request (MessagesUpdateEdit (js "m2") (js "hello Bob!")
                         (js "2025-01-03T08:00:00.000Z"))) (js "m2")).
    + unfold session. repeat constructor; simpl; congruence.
    + vm_compute. tauto.
    + reflexivity.
Defined.
End EditFacts.

(** ** The notification badge *)

Module BadgeFacts.
Import NotificationBadge.

Lemma onSnapshot_state p m :
  let nd := default (mkNotificationData None None None) (notificationData p) in
  let unread := default 0 (nd_unreadCount nd) in
  ui (exec (onSnapshot (Some p)) m)
  = mkBadge unread
      match lastNotificationTime nd, lastSeenTime nd with
      | Some t, Some s => t >? s
      | _, _ => unread >? 0
      end.
Proof.
  intros nd unread. unfold exec, onSnapshot, bind, set_state. simpl.
  fold nd. fold unread.
  destruct (lastNotificationTime nd) as [t|], (lastSeenTime nd) as [s|];
    simpl; try done; by destruct (unread >? 0).
Qed.

(** C5 (amended).  On every profile update the derived flag is the
    comparison [lastNotificationTime > lastSeenTime] when both times are
    present, and [unreadCount > 0] otherwise, whichever time is absent; the
    local count is the stored one, 0 by default.  It is the flag of the
    specification except when [lastSeenTime] is present,
    [lastNotificationTime] absent and the count positive. *)
Theorem onSnapshot_derives_hasNew p m :
  let nd := default (mkNotificationData None None None) (notificationData p) in
  let unread := default 0 (nd_unreadCount nd) in
  let s' := ui (exec (onSnapshot (Some p)) m) in
  unreadCount s' = unread
  /\ hasNewNotifications s'
     = match lastNotificationTime nd, lastSeenTime nd with
       | Some t, Some s => t >? s
       | _, _ => unread >? 0
       end
  /\ (hasNewNotifications s' = hasNew_specified nd
      <-> ~ (lastNotificationTime nd = None /\ is_Some (lastSeenTime nd) /\ 0 < unread)).
Proof.
  intros nd unread s'. subst s'. rewrite onSnapshot_state. fold nd. fold unread.
  cbn [unreadCount hasNewNotifications]. split_and!; [done..|].
  unfold hasNew_specified. fold unread.
  destruct (lastNotificationTime nd) as [t|], (lastSeenTime nd) as [s|].
  - split; [|done]. intros _ (? & _). done.
  - split; [|done]. intros _ (? & _). done.
  - destruct (Z.gtb_spec unread 0) as [Hpos|Hle].
    + split; [done|]. intros Hno. exfalso. apply Hno.
      split_and!; [done | by eexists | lia].
    + split; [|done]. intros _ (_ & _ & ?). lia.
  - split; [|done]. intros _ (_ & [? ?] & _). done.
Qed.

(** C5 as stated fails: last seen at 100, no time of last notification, two
    unread; the handler raises the flag, the specification says false. *)
Lemma onSnapshot_counts_without_notification_time :
  let nd := mkNotificationData (Some 2) None (Some 100) in
  hasNewNotifications
    (ui (exec (onSnapshot (Some (mkProfile (Some nd)))) (mkMachine initial [] [])))
  <> hasNew_specified nd.
Proof. by vm_compute. Qed.

Lemma handlePress_accepted w m uid :
  currentUser w = Some uid ->
  next_answer m = true ->
  exec (handlePress w) m
  = mkMachine (mkBadge (unreadCount (ui m)) false) (tail (net m))
      (trace m ++
         [ if onPress w then PropCallback "onPress" else RouterPush "/notifications";
           Request (UsersUpdateSeen uid (now w)); Settled true;
           Local (setHasNewNotifications false) ]).
Proof.
  intros Hu Hok.
  unfold exec, handlePress, try_catch, bind, set_state, await, emit, ret.
  rewrite Hu. unfold next_answer in *.
  destruct (onPress w); simpl; rewrite Hok; simpl; by rewrite <- !app_assoc.
Qed.

Lemma handlePress_without_effect w m :
  currentUser w = None \/ next_answer m = false ->
  ui (exec (handlePress w) m) = ui m.
Proof.
  unfold exec, handlePress, try_catch, bind, set_state, await, emit, ret, next_answer.
  intros [-> | Hko]; [by destruct (onPress w)|].
  destruct (onPress w), (currentUser w); simpl; rewrite ?Hko; done.
Qed.

(** C4 (amended).  With a signed-in user and a store that accepts the
    write, the seen action writes [lastSeenTime = now] and [unreadCount = 0]
    to the store, then sets the local [hasNew] to false, and leaves the
    local [unreadCount] as it was; the local count becomes 0 when the
    subscription delivers the profile so written.  Without a user, or when
    the store rejects the write, the local state is unchanged. *)
Theorem handlePress_clears_hasNew w m :
  let m' := exec (handlePress w) m in
  (forall uid, currentUser w = Some uid -> next_answer m = true ->
     requests (new_events m m') = [UsersUpdateSeen uid (now w)]
     /\ hasNewNotifications (ui m') = false
     /\ unreadCount (ui m') = unreadCount (ui m)
     /\ forall p, unreadCount (ui (exec (onSnapshot (Some (seen (now w) p))) m')) = 0)
  /\ (currentUser w = None \/ next_answer m = false -> ui m' = ui m).
Proof.
  intros m'. subst m'. split; [|apply handlePress_without_effect].
  intros uid Hu Hok. rewrite (handlePress_accepted w m uid Hu Hok).
  unfold new_events. cbn [trace ui]. rewrite drop_app_length.
  split_and!; [by destruct (onPress w) | done | done |].
  intros p. by rewrite onSnapshot_state.
Qed.

Lemma handlePress_clears_hasNew_witness :
  let m' := exec (handlePress (Samples.pressing (Some Samples.alice)))
                 (Samples.threeUnread []) in
  hasNewNotifications (ui m') = false /\ unreadCount (ui m') = 3.
Proof.
  destruct (proj1 (handlePress_clears_hasNew
                     (Samples.pressing (Some Samples.alice)) (Samples.threeUnread []))
              Samples.alice eq_refl eq_refl) as (_ & Hnew & Hcount & _).
  split; [exact Hnew | exact Hcount].
Defined.

(** C4 as stated fails: Alice presses the badge that shows three unread
    notifications and the store accepts the write; the local count is
    still 3.  And when the store rejects the write the flag stays set. *)
Lemma handlePress_keeps_local_count :
  ~ cleared (ui (exec (handlePress (Samples.pressing (Some Samples.alice)))
                      (Samples.threeUnread [])))
  /\ ~ cleared (ui (exec (handlePress (Samples.pressing (Some Samples.alice)))
                         (Samples.threeUnread [false]))).
Proof. split; intros [H _]; vm_compute in H; discriminate. Qed.
End BadgeFacts.

(** ** The analytics of the admin dashboard *)

Module AnalyticsFacts.
Import AdminDashboard.

Lemma count_rating_cons r f fs :
  count_rating r (f :: fs)
  = (if decide (rating f = r) then 1 else 0) + count_rating r fs.
Proof.
  unfold count_rating. simpl.
  destruct (Z.eqb_spec (rating f) r); case_decide; try done; simpl; lia.
Qed.

Lemma count_rating_nonneg r fs : 0 <= count_rating r fs.
Proof. unfold count_rating. lia. Qed.

(** What the loop over the feedback leaves under key [r]: the key is
    untouched when no record has rating [r]; otherwise a count that started
    as a number has grown by the number of such records, and anything else
    has become [NaN]. *)
Lemma fold_rate_lookup r fs : forall d t,
  fst (fold_left rate fs (d, t)) !! r
  = if decide (count_rating r fs = 0) then d !! r
    else Some (match d !! r with
               | Some (Num n) => Num (n + count_rating r fs)
               | _ => NaN
               end).
Proof.
  induction fs as [|f fs IH]; intros d t.
  - reflexivity.
  - cbn [fold_left rate]. rewrite IH, count_rating_cons.
    pose proof (count_rating_nonneg r fs).
    destruct (decide (rating f = r)) as [->|Hne].
    + rewrite lookup_insert_eq.
      destruct (decide (count_rating r fs = 0)) as [->|Hc];
        (destruct (decide (_ = 0)); [lia|]);
        destruct (d !! r) as [[k|]|]; simpl; try done; do 2 f_equal; lia.
    + rewrite lookup_insert_ne by done. rewrite Z.add_0_l. done.
Qed.

Lemma fold_rate_total fs : forall d t,
  snd (fold_left rate fs (d, t)) = t + sum_ratings fs.
Proof.
  induction fs as [|f fs IH]; intros d t; simpl; [lia|]. rewrite IH. lia.
Qed.

Lemma emptyDistribution_lookup r :
  1 <= r <= 5 -> emptyDistribution !! r = Some (Num 0).
Proof.
  intros Hr. unfold emptyDistribution.
  assert (r = 1 \/ r = 2 \/ r = 3 \/ r = 4 \/ r = 5) as Hcase by lia.
  destruct Hcase as [->|[->|[->|[->| ->]]]]; by vm_compute.
Qed.

Lemma emptyDistribution_lookup_other r :
  ~ 1 <= r <= 5 -> emptyDistribution !! r = None.
Proof.
  intros Hr. unfold emptyDistribution.
  rewrite !lookup_insert_ne by lia. apply lookup_empty.
Qed.

Lemma ratingDistribution_fold feedback surveys :
  ratingDistribution (calculateAnalytics feedback surveys)
  = fst (fold_left rate feedback (emptyDistribution, 0)).
Proof.
  unfold calculateAnalytics. by destruct (fold_left rate feedback _).
Qed.

Lemma averageRating_fold feedback surveys :
  averageRating (calculateAnalytics feedback surveys)
  = if (0 <? length feedback)%nat
    then (inject_Z (sum_ratings feedback) / inject_Z (Z.of_nat (length feedback)))%Q
    else 0%Q.
Proof.
  unfold calculateAnalytics.
  pose proof (fold_rate_total feedback emptyDistribution 0) as Ht.
  destruct (fold_left rate feedback _) as [d t]. simpl in *. by rewrite Ht.
Qed.

Lemma ratingDistribution_count feedback surveys r :
  1 <= r <= 5 ->
  ratingDistribution (calculateAnalytics feedback surveys) !! r
  = Some (Num (count_rating r feedback)).
Proof.
  intros Hr. rewrite ratingDistribution_fold, fold_rate_lookup.
  rewrite (emptyDistribution_lookup r Hr).
  case_decide as Hc; [by rewrite Hc | by rewrite Z.add_0_l].
Qed.

(** C9.  The aggregation counts, for each rating from 1 to 5, the records
    with that rating, and averages the ratings: their sum divided by their
    number, 0 for the empty list.  For the ratings 5, 5, 4, 3, 5, 1 the
    distribution is 1:1, 2:0, 3:1, 4:1, 5:3 and the average 23/6. *)
Theorem calculateAnalytics_ratings :
  (forall feedback surveys,
     let a := calculateAnalytics feedback surveys in
     (forall r, 1 <= r <= 5 ->
        ratingDistribution a !! r = Some (Num (count_rating r feedback)))
     /\ (feedback = [] -> averageRating a = 0%Q)
     /\ (feedback <> [] ->
         averageRating a
         = (inject_Z (sum_ratings feedback)
            / inject_Z (Z.of_nat (length feedback)))%Q))
  /\ (let a := calculateAnalytics (rated [5; 5; 4; 3; 5; 1]) [] in
      ratingDistribution a
      = <[1 := Num 1]> (<[2 := Num 0]> (<[3 := Num 1]> (<[4 := Num 1]>
          (<[5 := Num 3]> ∅))))
      /\ (averageRating a == 23 # 6)%Q).
Proof.
  split.
  - intros feedback surveys a. subst a. split_and!.
    + intros r Hr. by apply ratingDistribution_count.
    + intros ->. reflexivity.
    + intros Hne. rewrite averageRating_fold.
      destruct feedback; [done|reflexivity].
  - split; [by vm_compute | reflexivity].
Qed.

Lemma calculateAnalytics_ratings_witness :
  ratingDistribution (calculateAnalytics (rated [5; 5; 4; 3; 5; 1]) []) !! 5
  = Some (Num (count_rating 5 (rated [5; 5; 4; 3; 5; 1])))
  /\ averageRating (calculateAnalytics [] []) = 0%Q.
Proof.
  split.
  - apply (proj1 (proj1 calculateAnalytics_ratings (rated [5; 5; 4; 3; 5; 1]) [])).
    lia.
  - apply (proj1 (proj2 (proj1 calculateAnalytics_ratings [] []))). reflexivity.
Defined.

Lemma count_rating_sum fs :
  Forall (fun f => 1 <= rating f <= 5) fs ->
  count_rating 1 fs + count_rating 2 fs + count_rating 3 fs
  + count_rating 4 fs + count_rating 5 fs = Z.of_nat (length fs).
Proof.
  induction 1 as [|f fs Hf _ IH]; [done|].
  rewrite !count_rating_cons. cbn [length].
  repeat case_decide; lia.
Qed.

(** C10.  When every rating lies in 1..5, each of the five counts is a
    natural number and the five add up to the number of records.  A rating
    outside 1..5 makes the loop increment a key that was never set, which
    leaves [NaN] under it; the list with the single rating 6 is such a
    case. *)
Theorem ratingDistribution_needs_ratings_in_range :
  (forall feedback surveys,
     Forall (fun f => 1 <= rating f <= 5) feedback ->
     let d := ratingDistribution (calculateAnalytics feedback surveys) in
     exists n1 n2 n3 n4 n5,
       d !! 1 = Some (Num n1) /\ d !! 2 = Some (Num n2) /\ d !! 3 = Some (Num n3)
       /\ d !! 4 = Some (Num n4) /\ d !! 5 = Some (Num n5)
       /\ 0 <= n1 /\ 0 <= n2 /\ 0 <= n3 /\ 0 <= n4 /\ 0 <= n5
       /\ n1 + n2 + n3 + n4 + n5 = Z.of_nat (length feedback))
  /\ (forall feedback surveys f,
        In f feedback -> ~ 1 <= rating f <= 5 ->
        emptyDistribution !! rating f = None
        /\ ratingDistribution (calculateAnalytics feedback surveys) !! rating f
           = Some NaN)
  /\ ratingDistribution (calculateAnalytics (rated [6]) []) !! 6 = Some NaN.
Proof.
  split_and!.
  - intros feedback surveys Hall d. subst d.
    exists (count_rating 1 feedback), (count_rating 2 feedback),
      (count_rating 3 feedback), (count_rating 4 feedback), (count_rating 5 feedback).
    rewrite !ratingDistribution_count by lia.
    split_and!; try done; try apply count_rating_nonneg.
    by apply count_rating_sum.
  - intros feedback surveys f Hin Hout.
    split; [by apply emptyDistribution_lookup_other|].
    rewrite ratingDistribution_fold, fold_rate_lookup.
    rewrite (emptyDistribution_lookup_other _ Hout).
    case_decide as Hc; [|done].
    exfalso. clear -Hin Hc. induction feedback as [|g fs IH]; [done|].
    rewrite count_rating_cons in Hc. pose proof (count_rating_nonneg (rating f) fs).
    destruct Hin as [->|Hin]; case_decide; try lia; try done. apply IH; [done|lia].
  - by vm_compute.
Qed.

Lemma ratingDistribution_needs_ratings_in_range_witness :
  exists n1 n2 n3 n4 n5,
    let d := ratingDistribution (calculateAnalytics (rated [5; 5; 4; 3; 5; 1]) []) in
    d !! 1 = Some (Num n1) /\ d !! 2 = Some (Num n2) /\ d !! 3 = Some (Num n3)
    /\ d !! 4 = Some (Num n4) /\ d !! 5 = Some (Num n5)
    /\ 0 <= n1 /\ 0 <= n2 /\ 0 <= n3 /\ 0 <= n4 /\ 0 <= n5
    /\ n1 + n2 + n3 + n4 + n5 = Z.of_nat (length (rated [5; 5; 4; 3; 5; 1])).
Proof.
  apply (proj1 ratingDistribution_needs_ratings_in_range (rated [5; 5; 4; 3; 5; 1]) []).
  unfold rated. repeat constructor; simpl; lia.
Defined.
End AnalyticsFacts.

(** * Further properties *)

(** A decidable property of closed terms is proved by evaluation. *)
Ltac prove_by_evaluation :=
  lazymatch goal with
  | |- ?P => apply (bool_decide_eq_true_1 P); vm_compute; reflexivity
  end.

(** ** The conversation screen *)

Module ConversationMore.
Import Conversation ConversationView ConversationFacts.

Lemma requests_app {U} (l k : list (Event U)) :
  requests (l ++ k) = requests l ++ requests k.
Proof. unfold requests. apply omap_app. Qed.

(** The requests of the loop of [loadMessages]: one mark-as-read for each
    document between the two users that is addressed to the user and unread,
    whatever the store answers to them. *)
Lemma loadMessages_loop_requests userId other docs : forall acc m,
  exists m' evs,
    loadMessages_loop userId other docs acc m
    = (Done (acc ++ (message_of_doc <$>
               List.filter (fun d => between userId other (doc_data d)) docs)), m')
    /\ ui m' = ui m
    /\ trace m' = trace m ++ evs
    /\ requests evs
       = (fun d => MessagesUpdateRead (doc_id d))
           <$> List.filter (unread_for userId)
                 (List.filter (fun d => between userId other (doc_data d)) docs).
Proof.
  induction docs as [|d docs IH]; intros acc m; simpl.
  - exists m, []. by rewrite !app_nil_r.
  - destruct (between userId other (doc_data d)); [|apply IH].
    unfold bind. simpl. unfold unread_for at 1.
    destruct (str_eqb (d_receiverId (doc_data d)) userId
              && negb (default false (d_read (doc_data d)))).
    + unfold try_catch, await, emit.
      destruct (next_answer m); simpl.
      * edestruct IH as (m' & evs & -> & Hui & Htr & Hev).
        exists m', ([Request (MessagesUpdateRead (doc_id d)); Settled true] ++ evs).
        rewrite Hui, Htr. simpl. rewrite <- !app_assoc. split_and!; try done.
        by rewrite Hev.
      * edestruct IH as (m' & evs & -> & Hui & Htr & Hev).
        exists m', ([Request (MessagesUpdateRead (doc_id d)); Settled false;
                     ConsoleError "Error marking message as read:"] ++ evs).
        rewrite Hui, Htr. simpl. rewrite <- !app_assoc. split_and!; try done.
        by rewrite Hev.
    + simpl. edestruct IH as (m' & evs & -> & Hui & Htr & Hev).
      exists m', evs. rewrite <- app_assoc. by split_and!.
Qed.

(** X1.  When the query of a load is answered, the requests of the load are
    the query followed by one mark-as-read for each listed message that is
    addressed to the user and not yet read, in the order of the list, whatever
    the store answers to these updates. *)
Theorem loadMessages_marks_unread w userId m :
  next_answer m = true ->
  requests (new_events m (exec (loadMessages w userId) m))
  = MessagesQuery userId (otherUserId w)
    :: ((fun d => MessagesUpdateRead (doc_id d))
          <$> List.filter (unread_for userId)
                (List.filter (fun d => between userId (otherUserId w) (doc_data d))
                   (messagesQuery userId (otherUserId w) (messagesCollection w)))).
Proof.
  intros Hok. unfold new_events, exec, loadMessages, try_catch, bind, await, emit,
    set_state. rewrite Hok.
  edestruct loadMessages_loop_requests as (m' & evs & -> & Hui & Htr & Hev).
  simpl. rewrite Htr. simpl. rewrite <- !app_assoc, drop_app_length.
  simpl. rewrite requests_app, Hev. simpl. by rewrite app_nil_r.
Qed.

Lemma loadMessages_marks_unread_witness :
  requests (new_events (Samples.boot [true; false])
              (exec (loadMessages Samples.withBob Samples.alice)
                    (Samples.boot [true; false])))
  = [MessagesQuery Samples.alice Samples.bob; MessagesUpdateRead (js "m3")].
Proof.
  rewrite (loadMessages_marks_unread Samples.withBob Samples.alice
             (Samples.boot [true; false]) eq_refl).
  by vm_compute.
Defined.

(** [loadMessages] never throws, and changes at most the list. *)
Lemma loadMessages_done w userId m :
  exists m',
    loadMessages w userId m = (Done tt, m')
    /\ (ui m' = ui m \/ exists l, ui m' = apply_setter (setMessages l) (ui m)).
Proof.
  unfold loadMessages, try_catch, bind, await, emit, set_state.
  destruct (next_answer m); simpl.
  - edestruct loadMessages_loop_result as (m' & evs & -> & Hui & _).
    eexists. split; [reflexivity|]. simpl. rewrite Hui. right. by eexists.
  - eexists. split; [reflexivity|]. by left.
Qed.

(** X2.  Whatever the session and whatever the store answers, the screen is
    no longer loading once [loadUserAndMessages] has run. *)
Theorem loadUserAndMessages_stops_loading w m :
  loading (ui (exec (loadUserAndMessages w) m)) = false.
Proof.
  unfold exec, loadUserAndMessages, try_finally, try_catch, bind, await, emit,
    set_state, ret.
  destruct (currentUser w) as [uid|]; simpl; [|done].
  destruct (next_answer m); simpl; [|done].
  destruct (usersDoc w) as [data|]; simpl;
    (edestruct (loadMessages_done w uid) as (m' & -> & _); done).
Qed.

(** What one turn of the loop does to the list, a load apart: nothing, or
    the append of a send. *)
Lemma step_messages w a m :
  a <> Load ->
  messages (ui (step m (w, a))) = messages (ui m)
  \/ (a = PressSend
      /\ exists uid profile,
           currentUser w = Some uid /\ userData (ui m) = Some profile
           /\ messages (ui (step m (w, a)))
              = messages (ui m) ++ [newMessageObj w (messageData w (ui m) uid profile)]).
Proof.
  intros Hload. destruct a; unfold step; cbn [fst snd handler]; try done;
    try (by left).
  - (* PressSend *)
    unfold exec, handleSendMessage, try_finally, try_catch, bind, set_state,
      await, emit, ret, next_answer.
    destruct (userData (ui m)) as [profile|] eqn:Hud; [|by left].
    destruct (truthy (trim (newMessage (ui m)))); [|by left].
    destruct (currentUser w) as [uid|] eqn:Hu; simpl; [|by left].
    destruct (net m) as [|[] ?]; simpl; try (by left);
      right; (split; [done|]); by exists uid, profile.
  - (* LongPress *)
    unfold exec, handleLongPress, bind, set_state, ret.
    destruct (currentUser w); [|by left].
    destruct (str_eqb _ _); by left.
  - (* PressEdit *)
    unfold exec, handleEditMessage, bind, set_state, ret.
    destruct (selectedMessage (ui m)); by left.
  - (* PressDelete *)
    unfold exec, handleDeleteMessage, bind, set_state, ret.
    destruct (selectedMessage (ui m)); by left.
  - (* PressAlertButton *)
    unfold exec, pressAlert, try_catch, bind, set_state, await, emit, ret, next_answer.
    destruct (alertConfig (ui m)) as [alert|]; [|by left].
    destruct (actions alert !! i) as [[? [|sel] ?]|]; simpl; try (by left).
    destruct (net m) as [|[] ?]; by left.
  - (* PressSave *)
    unfold exec, handleSaveEdit, try_catch, bind, set_state, await, emit, ret,
      next_answer.
    destruct (editingMessage (ui m)); [|by left].
    destruct (truthy (trim (editText (ui m)))); [|by left].
    destruct (net m) as [|[] ?]; by left.
Qed.

(** X3.  Only a load or a send changes the local list: every other action,
    a saved edit and a confirmed delete among them, leaves it as it was,
    whatever the store answers. *)
Theorem list_changes_only_on_load_or_send w a m :
  a <> Load -> a <> PressSend ->
  messages (ui (step m (w, a))) = messages (ui m).
Proof.
  intros Hload Hsend.
  destruct (step_messages w a m Hload) as [H | [H _]]; [done | congruence].
Qed.

Lemma list_changes_only_on_load_or_send_witness :
  messages (ui (step Samples.deleting (Samples.withBob, PressAlertButton 1)))
  = messages (ui Samples.deleting).
Proof.
  apply (list_changes_only_on_load_or_send
           Samples.withBob (PressAlertButton 1) Samples.deleting); discriminate.
Defined.

(** X4.  A list that holds only messages between the user and
    [otherUserId] still does after any action that is not a load: what a send
    appends is a message of the user to [otherUserId]. *)
Theorem step_keeps_the_conversation uid w a m :
  a <> Load ->
  (forall u, currentUser w = Some u -> u = uid) ->
  Forall (of_pair uid (otherUserId w)) (messages (ui m)) ->
  Forall (of_pair uid (otherUserId w)) (messages (ui (step m (w, a)))).
Proof.
  intros Hload Hses Hall.
  destruct (step_messages w a m Hload) as [-> | (_ & u & profile & Hu & _ & ->)];
    [done|].
  apply Forall_app. split; [done|].
  apply Forall_singleton. left. simpl. split; [|done]. by apply Hses.
Qed.

Lemma step_keeps_the_conversation_witness :
  Forall (of_pair Samples.alice Samples.bob)
    (messages (ui (step (Samples.typed []) (Samples.withBob, PressSend)))).
Proof.
  apply (step_keeps_the_conversation Samples.alice Samples.withBob PressSend
           (Samples.typed [])).
  - discriminate.
  - intros u [= <-]. reflexivity.
  - prove_by_evaluation.
Defined.

(** X5.  A send that gets past its guards ends with [sending] false.  When
    the store accepts the message the input is emptied and no alert is raised;
    when it rejects it the typed text stays in the input and the error alert
    is shown, whose only button closes it. *)
Theorem handleSendMessage_input w m uid profile :
  ~ blank (newMessage (ui m)) ->
  userData (ui m) = Some profile ->
  currentUser w = Some uid ->
  let m' := exec (handleSendMessage w (ui m)) m in
  sending (ui m') = false
  /\ (next_answer m = true ->
      newMessage (ui m') = [] /\ alertConfig (ui m') = alertConfig (ui m))
  /\ (next_answer m = false ->
      newMessage (ui m') = newMessage (ui m)
      /\ alertConfig (ui m')
         = Some (errorAlert "Failed to send message. Please try again.")
      /\ alertConfig (ui (step m' (w, PressAlertButton 0))) = None).
Proof.
  intros Hnb Hud Hu. apply trim_truthy_iff_not_blank in Hnb.
  unfold step, exec, handleSendMessage. rewrite Hud, Hnb, Hu.
  unfold try_finally, try_catch, bind, set_state, await, emit, next_answer. simpl.
  destruct (net m) as [|[] ?]; simpl; split_and!; try done.
Qed.

Lemma handleSendMessage_input_witness :
  newMessage (ui (exec (handleSendMessage Samples.withBob (ui (Samples.typed [])))
                       (Samples.typed []))) = [].
Proof.
  apply (handleSendMessage_input Samples.withBob (Samples.typed [])
           Samples.alice Samples.aliceProfile); [|done..].
  refute_by_evaluation.
Defined.

(** X6.  Saving an edit with a text that is not blank asks the store for
    exactly one update, of the edited message, with the trimmed text and the
    current time.  When the store accepts it the editor closes and is
    emptied; when it rejects it the editor stays open with the text as typed
    and the error alert is shown. *)
Theorem handleSaveEdit_outcome w m editing :
  editingMessage (ui m) = Some editing ->
  ~ blank (editText (ui m)) ->
  let m' := exec (handleSaveEdit w (ui m)) m in
  requests (new_events m m')
  = [MessagesUpdateEdit (id editing) (trim (editText (ui m))) (nowISO w)]
  /\ (next_answer m = true ->
      showEditModal (ui m') = false /\ editingMessage (ui m') = None
      /\ editText (ui m') = [])
  /\ (next_answer m = false ->
      showEditModal (ui m') = showEditModal (ui m)
      /\ editingMessage (ui m') = Some editing
      /\ editText (ui m') = editText (ui m)
      /\ alertConfig (ui m')
         = Some (errorAlert "Failed to edit message. Please try again.")).
Proof.
  intros Hed Hnb. apply trim_truthy_iff_not_blank in Hnb.
  unfold new_events, exec, handleSaveEdit. rewrite Hed, Hnb.
  unfold try_catch, bind, set_state, await, emit, next_answer. simpl.
  destruct (net m) as [|[] ?]; simpl; rewrite <- ?app_assoc, drop_app_length;
    split_and!; done.
Qed.

Lemma handleSaveEdit_outcome_witness :
  let m := run (removelast Samples.editing) (Samples.boot []) in
  requests (new_events m (exec (handleSaveEdit Samples.withBob (ui m)) m))
  = [MessagesUpdateEdit (js "m2") (js "hello Bob!") (js "2025-01-03T08:00:00.000Z")].
Proof.
  intros m.
  refine (proj1 (handleSaveEdit_outcome Samples.withBob m Samples.aliceToBob eq_refl _)).
  refute_by_evaluation.
Defined.

(** X7.  Opening the editor on one's own message and saving at once, the
    text untouched, still asks the store for an update: with the trimmed
    content of the message. *)
Theorem unchanged_edit_is_saved w msg m :
  currentUser w = Some (senderId msg) ->
  ~ blank (content msg) ->
  requests (new_events m (run [(w, LongPress msg); (w, PressEdit); (w, PressSave)] m))
  = [MessagesUpdateEdit (id msg) (trim (content msg)) (nowISO w)].
Proof.
  intros Hu Hnb. apply trim_truthy_iff_not_blank in Hnb.
  unfold new_events, run, step, exec. cbn [fold_left fst snd handler].
  unfold handleLongPress. rewrite Hu.
  assert (str_eqb (senderId msg) (senderId msg) = true) as -> by by apply str_eqb_eq.
  unfold handleEditMessage, handleSaveEdit, try_catch, bind, set_state, await, emit,
    next_answer. simpl. rewrite Hnb. simpl.
  destruct (net m) as [|[] ?]; simpl; by rewrite <- ?app_assoc, drop_app_length.
Qed.

Lemma unchanged_edit_is_saved_witness :
  requests (new_events (Samples.typed [])
              (run [(Samples.withBob, LongPress Samples.aliceToBob);
                    (Samples.withBob, PressEdit); (Samples.withBob, PressSave)]
                   (Samples.typed [])))
  = [MessagesUpdateEdit (js "m2") (js "hello Bob") (js "2025-01-03T08:00:00.000Z")].
Proof.
  rewrite (unchanged_edit_is_saved Samples.withBob Samples.aliceToBob (Samples.typed []));
    [by vm_compute | reflexivity | refute_by_evaluation].
Defined.

(** *** The texts sent to the store *)

Lemma trim_start_suffix s : exists pre, s = pre ++ trim_start s.
Proof.
  induction s as [|c s [pre IH]]; simpl; [by exists []|].
  destruct (is_white_space c); [|by exists []].
  exists (c :: pre). simpl. by rewrite <- IH.
Qed.

Lemma trim_trimmed s : trimmed (trim s).
Proof.
  unfold trimmed, trim, trim_end. rewrite reverse_involutive.
  set (t := trim_start s). set (u := trim_start (reverse t)). split.
  - destruct (reverse u) as [|c r] eqn:Hr; [done|].
    destruct (trim_start_suffix (reverse t)) as [pre Hpre]. fold u in Hpre.
    apply (f_equal reverse) in Hpre.
    rewrite reverse_involutive, reverse_app, Hr in Hpre. simpl in Hpre.
    by apply (trim_start_head s c (r ++ reverse pre)).
  - destruct u as [|c r] eqn:Hu; [done|]. by apply (trim_start_head (reverse t) c r).
Qed.

Lemma loadMessages_requests_text w userId m :
  exists m' evs,
    loadMessages w userId m = (Done tt, m')
    /\ trace m' = trace m ++ evs
    /\ Forall (fun c => stored_text c = None) (requests evs).
Proof.
  unfold loadMessages, try_catch, bind, await, emit, set_state.
  destruct (next_answer m); simpl.
  - edestruct loadMessages_loop_requests as (m' & evs & -> & _ & Htr & Hev).
    eexists _, ([Request (MessagesQuery userId (otherUserId w)); Settled true]
                ++ evs ++ [Local (setMessages _); ScrollToEnd]).
    split; [reflexivity|]. simpl in Htr. simpl. rewrite Htr, <- !app_assoc. simpl.
    split; [done|]. constructor; [done|]. rewrite requests_app, Hev.
    apply Forall_app. split; [by apply Forall_fmap, Forall_true | by repeat constructor].
  - eexists _, [Request (MessagesQuery userId (otherUserId w)); Settled false;
                ConsoleError "Error loading messages:"].
    split; [reflexivity|]. simpl. rewrite <- !app_assoc. split; [done|].
    by repeat constructor.
Qed.

Lemma step_requests_text w a m :
  Forall (fun c => forall t, stored_text c = Some t -> trimmed t /\ t <> [])
    (requests (new_events m (step m (w, a)))).
Proof.
  assert (Hnil : forall m0 : Machine Screen Setter,
            Forall (fun c => forall t, stored_text c = Some t -> trimmed t /\ t <> [])
              (requests (new_events m0 m0))).
  { intros m0. unfold new_events. by rewrite drop_all. }
  assert (Hone : forall (m0 : Machine Screen Setter) s n u,
            Forall (fun c => forall t, stored_text c = Some t -> trimmed t /\ t <> [])
              (requests (new_events m0 (mkMachine s n (trace m0 ++ [Local u]))))).
  { intros. unfold new_events. simpl. by rewrite drop_app_length. }
  assert (Hnone : forall l : list StoreCall,
            Forall (fun c => stored_text c = None) l ->
            Forall (fun c => forall t, stored_text c = Some t -> trimmed t /\ t <> []) l).
  { intros l Hl. eapply Forall_impl; [exact Hl|]. simpl. intros c -> ?. done. }
  destruct a; unfold step; cbn [fst snd handler]; try apply Hone.
  - (* Load *)
    unfold new_events, exec, loadUserAndMessages, try_finally, try_catch,
      bind, await, emit, set_state, ret.
    destruct (currentUser w) as [uid|]; simpl;
      [|by rewrite drop_app_length].
    destruct (next_answer m); simpl;
      [|rewrite <- !app_assoc, drop_app_length; simpl; by repeat constructor].
    destruct (usersDoc w) as [data|]; simpl;
      (edestruct (loadMessages_requests_text w uid) as (m' & evs & -> & Htr & Hev);
       simpl; rewrite Htr; simpl; rewrite <- !app_assoc, drop_app_length;
       apply Hnone; simpl; constructor; [done|];
       rewrite requests_app; apply Forall_app; split; [done | by repeat constructor]).
  - (* PressSend *)
    unfold new_events, exec, handleSendMessage, try_finally, try_catch, bind, set_state,
      await, emit, ret, next_answer.
    destruct (userData (ui m)) as [profile|]; [|apply Hnil].
    destruct (truthy (trim (newMessage (ui m)))) eqn:Htext; [|apply Hnil].
    destruct (currentUser w) as [uid|]; simpl.
    + destruct (net m) as [|[] ?]; simpl; rewrite <- !app_assoc, drop_app_length;
        simpl; (constructor; [|done]); simpl; intros t [= <-];
        (split; [apply trim_trimmed | by destruct (trim (newMessage (ui m)))]).
    + rewrite <- !app_assoc, drop_app_length. done.
  - (* LongPress *)
    unfold new_events, exec, handleLongPress, bind, set_state, ret.
    destruct (currentUser w); [|apply Hnil].
    destruct (str_eqb _ _); [|apply Hnil].
    simpl. rewrite <- !app_assoc, drop_app_length. done.
  - (* PressEdit *)
    unfold new_events, exec, handleEditMessage, bind, set_state, ret.
    destruct (selectedMessage (ui m)); [|apply Hnil].
    simpl. rewrite <- !app_assoc, drop_app_length. done.
  - (* PressDelete *)
    unfold new_events, exec, handleDeleteMessage, bind, set_state, ret.
    destruct (selectedMessage (ui m)); [|apply Hnil]. apply Hone.
  - (* PressAlertButton *)
    unfold new_events, exec, pressAlert, try_catch, bind, set_state, await, emit, ret,
      next_answer.
    destruct (alertConfig (ui m)) as [alert|]; [|apply Hnil].
    destruct (actions alert !! i) as [[? [|sel] ?]|]; simpl; [| |apply Hnil].
    + by rewrite drop_app_length.
    + destruct (net m) as [|[] ?]; simpl; rewrite <- !app_assoc, drop_app_length;
        simpl; by repeat constructor.
  - (* PressSave *)
    unfold new_events, exec, handleSaveEdit, try_catch, bind, set_state, await, emit, ret,
      next_answer.
    destruct (editingMessage (ui m)); [|apply Hnil].
    destruct (truthy (trim (editText (ui m)))) eqn:Htext; [|apply Hnil].
    destruct (net m) as [|[] ?]; simpl; rewrite <- !app_assoc, drop_app_length;
      simpl; (constructor; [|done]); simpl; intros t [= <-];
      (split; [apply trim_trimmed | by destruct (trim (editText (ui m)))]).
  - (* PressCancelEdit *)
    unfold new_events, exec, handleCancelEdit, bind, set_state. simpl.
    rewrite <- !app_assoc, drop_app_length. done.
Qed.

(** X8.  Whatever the user does on the screen, a message text that goes to
    the store, in a create or in an edit, is never empty and has no white
    space at its start or at its end. *)
Theorem stored_texts_are_trimmed w a m c t :
  In c (requests (new_events m (step m (w, a)))) ->
  stored_text c = Some t ->
  trimmed t /\ t <> [].
Proof.
  intros Hin Ht. pose proof (step_requests_text w a m) as Hall.
  rewrite Forall_forall in Hall. apply (Hall c); [|done]. by apply list_elem_of_In.
Qed.

Lemma stored_texts_are_trimmed_witness :
  trimmed (js "on my way") /\ js "on my way" <> [].
Proof.
  apply (stored_texts_are_trimmed Samples.withBob PressSend (Samples.typed [])
           (MessagesAdd (messageData Samples.withBob (ui (Samples.typed []))
                           Samples.alice Samples.aliceProfile))).
  - vm_compute. by left.
  - by vm_compute.
Defined.

(** *** Deleting *)

Lemma alert_targets_lookup alert i action sel :
  actions alert !! i = Some action ->
  onPress action = confirmDelete sel ->
  sel ∈ alert_targets (Some alert).
Proof.
  intros Hi Hp. unfold alert_targets. apply list_elem_of_omap.
  exists action. split; [by eapply list_elem_of_lookup_2|]. by rewrite Hp.
Qed.

Ltac load_events :=
  repeat first [apply Forall_nil_2 | apply Forall_cons_2 | apply Forall_app_2];
  simpl; done.

Lemma loadMessages_loop_events userId other docs : forall acc m,
  exists m' evs r,
    loadMessages_loop userId other docs acc m = (Done r, m')
    /\ ui m' = ui m
    /\ trace m' = trace m ++ evs
    /\ Forall (fun e => is_load_event e = true) evs.
Proof.
  induction docs as [|d docs IH]; intros acc m; simpl.
  - exists m, [], acc. by rewrite !app_nil_r.
  - destruct (between userId other (doc_data d)); [|apply IH].
    unfold bind.
    destruct (str_eqb (d_receiverId (doc_data d)) userId
              && negb (default false (d_read (doc_data d)))).
    + unfold try_catch, await, emit.
      destruct (next_answer m); simpl.
      * edestruct IH as (m' & evs & r & -> & Hui & Htr & Hev). simpl in Htr.
        exists m', ([Request (MessagesUpdateRead (doc_id d)); Settled true] ++ evs), r.
        rewrite Hui, Htr, <- !app_assoc. split_and!; [done..|]. load_events.
      * edestruct IH as (m' & evs & r & -> & Hui & Htr & Hev). simpl in Htr.
        exists m', ([Request (MessagesUpdateRead (doc_id d)); Settled false;
                     ConsoleError "Error marking message as read:"] ++ evs), r.
        rewrite Hui, Htr, <- !app_assoc. split_and!; [done..|]. load_events.
    + simpl. edestruct IH as (m' & evs & r & -> & Hui & Htr & Hev).
      by exists m', evs, r.
Qed.

(** A load touches the list, the profile and the loading flag only, and
    asks for nothing but the profile, the conversation and the read marks. *)
Lemma loadMessages_events w userId m :
  exists m' evs,
    loadMessages w userId m = (Done tt, m')
    /\ selectedMessage (ui m') = selectedMessage (ui m)
    /\ alertConfig (ui m') = alertConfig (ui m)
    /\ trace m' = trace m ++ evs
    /\ Forall (fun e => is_load_event e = true) evs.
Proof.
  unfold loadMessages, try_catch, bind, await, emit, set_state.
  destruct (next_answer m); simpl.
  - edestruct loadMessages_loop_events as (m' & evs & r & -> & Hui & Htr & Hev).
    simpl in Htr.
    eexists _, ([Request (MessagesQuery userId (otherUserId w)); Settled true]
                ++ evs ++ [Local (setMessages r); ScrollToEnd]).
    split; [reflexivity|]. simpl. rewrite Hui, Htr, <- !app_assoc. simpl.
    split_and!; [done..|]. load_events.
  - eexists _, [Request (MessagesQuery userId (otherUserId w)); Settled false;
                ConsoleError "Error loading messages:"].
    split; [reflexivity|]. simpl. rewrite <- !app_assoc.
    split_and!; [done..|]. load_events.
Qed.

Lemma loadUserAndMessages_events w m :
  let m' := exec (loadUserAndMessages w) m in
  selectedMessage (ui m') = selectedMessage (ui m)
  /\ alertConfig (ui m') = alertConfig (ui m)
  /\ exists evs, trace m' = trace m ++ evs
                 /\ Forall (fun e => is_load_event e = true) evs.
Proof.
  unfold exec, loadUserAndMessages, try_finally, try_catch, bind, await,
    emit, set_state, ret.
  destruct (currentUser w) as [uid|]; simpl.
  2: { split_and!; [done..|]. exists [Local (setLoading false)]. split; [done|].
       load_events. }
  destruct (next_answer m); simpl.
  - destruct (usersDoc w) as [data|]; simpl.
    + edestruct (loadMessages_events w uid) as (m' & evs & -> & Hs & Ha & Htr & Hev).
      simpl in *. rewrite Hs, Ha, Htr. split_and!; [done..|].
      exists ([Request (UsersGet uid); Settled true; Local (setUserData (Some data))]
              ++ evs ++ [Local (setLoading false)]).
      rewrite <- !app_assoc. split; [done|]. load_events.
    + edestruct (loadMessages_events w uid) as (m' & evs & -> & Hs & Ha & Htr & Hev).
      simpl in *. rewrite Hs, Ha, Htr. split_and!; [done..|].
      exists ([Request (UsersGet uid); Settled true] ++ evs ++ [Local (setLoading false)]).
      rewrite <- !app_assoc. split; [done|]. load_events.
  - split_and!; [done..|].
    exists [Request (UsersGet uid); Settled false;
            ConsoleError "Error loading user data:"; Local (setLoading false)].
    rewrite <- !app_assoc. split; [done|]. load_events.
Qed.

(** The alert is as it was, and the new events delete nothing. *)
Ltac same_alert := intros x Hx; left; exact Hx.
Ltac closed_alert := simpl; intros x Hx; by apply elem_of_nil in Hx.
Ltac no_delete :=
  first
    [ by exists []; rewrite app_nil_r
    | eexists; split;
      [ rewrite <- ?app_assoc; reflexivity
      | repeat first [apply Forall_nil_2 | apply Forall_cons_2]; simpl; done ] ].

(** One turn of the loop: which messages the alert can delete afterwards,
    and which documents a delete request names. *)
Lemma step_delete w a m :
  let m' := step m (w, a) in
  (forall x, x ∈ alert_targets (alertConfig (ui m')) ->
     x ∈ alert_targets (alertConfig (ui m)) \/ selectedMessage (ui m) = Some x)
  /\ exists evs,
       trace m' = trace m ++ evs
       /\ Forall (fun e => forall docId, delete_target e = Some docId ->
                    (exists i, a = PressAlertButton i)
                    /\ exists x, x ∈ alert_targets (alertConfig (ui m)) /\ id x = docId)
            evs.
Proof.
  destruct a; unfold step; cbn [fst snd handler].
  - (* Load *)
    destruct (loadUserAndMessages_events w m) as (_ & Ha & evs & Htr & Hev).
    split; [rewrite Ha; same_alert|].
    exists evs. split; [done|]. eapply Forall_impl; [exact Hev|].
    simpl. intros [u|c| | | | |] He docId Ht; try done. by destruct c.
  - (* TypeMessage *)
    split; [same_alert | no_delete].
  - (* PressSend *)
    unfold exec, handleSendMessage, try_finally, try_catch, bind, set_state,
      await, emit, ret, next_answer.
    destruct (userData (ui m)); [|split; [same_alert | no_delete]].
    destruct (truthy (trim (newMessage (ui m)))); [|split; [same_alert | no_delete]].
    destruct (currentUser w); simpl; [|split; [same_alert | no_delete]].
    destruct (net m) as [|[] ?]; simpl;
      (split; [first [same_alert | closed_alert] | no_delete]).
  - (* LongPress *)
    unfold exec, handleLongPress, bind, set_state, ret.
    destruct (currentUser w); [|split; [same_alert | no_delete]].
    destruct (str_eqb _ _); simpl; (split; [same_alert | no_delete]).
  - (* CloseActionSheet *)
    split; [same_alert | no_delete].
  - (* PressEdit *)
    unfold exec, handleEditMessage, bind, set_state, ret.
    destruct (selectedMessage (ui m)); simpl; (split; [same_alert | no_delete]).
  - (* PressDelete *)
    unfold exec, handleDeleteMessage, bind, set_state, ret.
    destruct (selectedMessage (ui m)) as [sel|] eqn:Hsel; simpl;
      [|split; [same_alert | no_delete]].
    split; [|no_delete].
    intros x Hx. apply list_elem_of_singleton in Hx as ->. by right.
  - (* PressAlertButton *)
    unfold exec, pressAlert, try_catch, bind, set_state, await, emit, ret, next_answer.
    destruct (alertConfig (ui m)) as [alert|] eqn:Halert;
      [|split; [simpl; rewrite ?Halert; same_alert | no_delete]].
    destruct (actions alert !! i) as [[? [|sel] ?]|] eqn:Hi; simpl.
    + split; [closed_alert | no_delete].
    + pose proof (alert_targets_lookup alert i _ sel Hi eq_refl) as Hsel.
      destruct (net m) as [|[] ?]; simpl;
        (split; [closed_alert|]);
        (eexists; split; [rewrite <- !app_assoc; reflexivity|]);
        repeat first [apply Forall_cons_2 | apply Forall_nil_2]; simpl; try done;
        (intros docId [= <-]; split; [by exists i | by exists sel]).
    + split; [simpl; rewrite ?Halert; same_alert | no_delete].
  - (* DismissAlert *)
    split; [closed_alert | no_delete].
  - (* TypeEdit *)
    split; [same_alert | no_delete].
  - (* PressSave *)
    unfold exec, handleSaveEdit, try_catch, bind, set_state, await, emit, ret,
      next_answer.
    destruct (editingMessage (ui m)); [|split; [same_alert | no_delete]].
    destruct (truthy (trim (editText (ui m)))); [|split; [same_alert | no_delete]].
    destruct (net m) as [|[] ?]; simpl;
      (split; [first [same_alert | closed_alert] | no_delete]).
  - (* PressCancelEdit *)
    unfold exec, handleCancelEdit, bind, set_state. simpl.
    split; [same_alert | no_delete].
Qed.

(** What every run keeps true under the session of [uid]: the selected
    message, the messages the alert can delete and the target of every delete
    request are messages the user has long-pressed and has sent. *)
Lemma run_delete_invariant uid net was :
  session uid was ->
  let m := run was (mkMachine initial net []) in
  let own x := In (LongPress x) (snd <$> was) /\ senderId x = uid in
  (forall x, selectedMessage (ui m) = Some x -> own x)
  /\ (forall x, x ∈ alert_targets (alertConfig (ui m)) -> own x)
  /\ (forall e docId, In e (trace m) -> delete_target e = Some docId ->
        exists x, own x /\ id x = docId).
Proof.
  induction was as [|[w a] was IH] using rev_ind; intros Hses.
  - simpl. split_and!; [done | intros x Hx; by apply elem_of_nil in Hx | intros ? ? []].
  - apply Forall_app in Hses as [Hses Hwa].
    rewrite Forall_singleton in Hwa. simpl in Hwa.
    specialize (IH Hses). simpl in IH. destruct IH as (IHs & IHa & IHt).
    rewrite EditFacts.run_snoc. simpl.
    assert (Hmono : forall x,
               In (LongPress x) (snd <$> was) /\ senderId x = uid ->
               In (LongPress x) (snd <$> was ++ [(w, a)]) /\ senderId x = uid).
    { intros x [Hin ?]. split; [|done]. rewrite fmap_app. apply in_or_app. by left. }
    destruct (EditFacts.step_edit w a (run was (mkMachine initial net [])))
      as (Hs & _ & _).
    destruct (step_delete w a (run was (mkMachine initial net [])))
      as (Ha & evs & Htr & Hev).
    split_and!.
    + intros x Hx. destruct Hs as [Hs | [Hs | (msg & -> & Hu & Hs)]].
      * apply Hmono, IHs. congruence.
      * congruence.
      * assert (x = msg) as -> by congruence.
        split; [|by apply Hwa].
        rewrite fmap_app. apply in_or_app. right. by left.
    + intros x Hx. destruct (Ha x Hx) as [Hold | Hsel].
      * by apply Hmono, IHa.
      * by apply Hmono, IHs.
    + intros e docId Hin Htarget. rewrite Htr in Hin.
      apply in_app_or in Hin as [Hin | Hin].
      * destruct (IHt e docId Hin Htarget) as (x & Hx & ?). exists x. auto.
      * rewrite Forall_forall in Hev. rewrite <- list_elem_of_In in Hin.
        destruct (Hev e Hin docId Htarget) as (_ & x & Hx & ?).
        exists x. split; [|done]. by apply Hmono, IHa.
Qed.

(** X9.  In every run of the screen under one session, a delete is only
    ever requested for a message the user has long-pressed and has sent. *)
Theorem delete_only_by_sender uid was net e docId :
  session uid was ->
  In e (trace (run was (mkMachine initial net []))) ->
  delete_target e = Some docId ->
  exists x, In (LongPress x) (snd <$> was) /\ senderId x = uid /\ id x = docId.
Proof.
  intros Hses Hin Htarget.
  destruct (run_delete_invariant uid net was Hses) as (_ & _ & Ht).
  destruct (Ht e docId Hin Htarget) as (x & [? ?] & ?). by exists x.
Qed.

Lemma delete_only_by_sender_witness :
  exists x, In (LongPress x) (snd <$> MoreSamples.removing)
            /\ senderId x = Samples.alice /\ id x = js "m2".
Proof.
  apply (delete_only_by_sender Samples.alice MoreSamples.removing []
           (Request (MessagesDelete (js "m2"))) (js "m2")).
  - unfold session. repeat constructor; simpl; congruence.
  - vm_compute. tauto.
  - reflexivity.
Defined.


End ConversationMore.

(** ** The notification badge *)

Module BadgeMore.
Import NotificationBadge BadgeView.

(** X11.  The count and the dot are never shown together.  After a profile
    update the dot is shown exactly when the count is 0, both times are
    present and the last notification is later than the last time seen. *)
Theorem badge_or_dot p m :
  (forall s, showsBadge s && showsDot s = false)
  /\ (let nd := default (mkNotificationData None None None) (notificationData p) in
      showsDot (ui (exec (onSnapshot (Some p)) m)) = true
      <-> default 0 (nd_unreadCount nd) = 0
          /\ exists t s, lastNotificationTime nd = Some t
                         /\ lastSeenTime nd = Some s /\ s < t).
Proof.
  split.
  - intros s. unfold showsBadge, showsDot.
    destruct (Z.gtb_spec (unreadCount s) 0), (Z.eqb_spec (unreadCount s) 0),
      (hasNewNotifications s); simpl; try done; lia.
  - intros nd. rewrite BadgeFacts.onSnapshot_state. fold nd.
    unfold showsDot. cbn [unreadCount hasNewNotifications].
    rewrite andb_true_iff, Z.eqb_eq.
    destruct (lastNotificationTime nd) as [t|], (lastSeenTime nd) as [s|].
    + rewrite Z.gtb_gt. split.
      * intros [Hnew Hzero]. split; [done|]. exists t, s. split_and!; [done..|lia].
      * intros [Hzero (t' & s' & [= <-] & [= <-] & Hlt)]. split; [lia|done].
    + split; [|by intros [_ (? & ? & _ & ? & _)]].
      intros [Hnew Hzero]. rewrite Hzero in Hnew. done.
    + split; [|by intros [_ (? & ? & ? & _)]].
      intros [Hnew Hzero]. rewrite Hzero in Hnew. done.
    + split; [|by intros [_ (? & ? & ? & _)]].
      intros [Hnew Hzero]. rewrite Hzero in Hnew. done.
Qed.

Lemma short_counts : Forall (fun n : Z => (String.length (pretty n) <= 2)%nat) (seqZ 1 99).
Proof. prove_by_evaluation. Qed.

(** X12.  When the count is shown, its text has at most three characters:
    the count itself up to 99, and 99+ above. *)
Theorem badgeText_is_short s :
  showsBadge s = true -> (String.length (badgeText s) <= 3)%nat.
Proof.
  unfold showsBadge, badgeText. rewrite Z.gtb_gt. intros Hpos.
  destruct (Z.gtb_spec (unreadCount s) 99) as [Hbig|Hsmall]; [done|].
  pose proof short_counts as Hall. rewrite Forall_forall in Hall.
  specialize (Hall (unreadCount s)). etrans; [apply Hall|lia].
  apply elem_of_seqZ. lia.
Qed.

Lemma badgeText_is_short_witness :
  (String.length (badgeText (mkBadge 120 true)) <= 3)%nat.
Proof. apply badgeText_is_short. reflexivity. Defined.

(** X13.  When the subscription delivers the profile the seen action
    writes (count 0, last seen at the time of the press), the local count is 0
    and no count is shown, whatever the local state was; the dot shows only
    for a notification stamped later than the press. *)
Theorem seen_profile_delivered pressed p m :
  let nd := default (mkNotificationData None None None) (notificationData p) in
  let delivered := ui (exec (onSnapshot (Some (seen pressed p))) m) in
  unreadCount delivered = 0
  /\ showsBadge delivered = false
  /\ (showsDot delivered = true
      <-> exists t, lastNotificationTime nd = Some t /\ pressed < t).
Proof.
  intros nd delivered. subst delivered.
  rewrite BadgeFacts.onSnapshot_state. unfold seen. fold nd.
  cbn [notificationData default nd_unreadCount lastNotificationTime lastSeenTime
       unreadCount hasNewNotifications]. unfold showsBadge, showsDot.
  cbn [unreadCount hasNewNotifications].
  split_and!; [done..|].
  destruct (lastNotificationTime nd) as [t|]; simpl.
  - rewrite andb_true_r, Z.gtb_gt. split.
    + intros Hlt. exists t. split; [done|lia].
    + intros (t' & [= <-] & Hlt). lia.
  - split; [done|]. by intros (? & ? & _).
Qed.
End BadgeMore.

(** ** The admin dashboard *)

Module DashboardMore.
Import AdminDashboard Dashboard.

(** What [loadData] leaves behind, by the answers of the store to its two
    reads. *)
Lemma loadData_result w s m :
  exists m',
    loadData w s m = (Done tt, m')
    /\ ui m'
       = mkScreen
           (if answer 0 m then latest50 (feedbackCollection w) else feedback (ui m))
           (if answer 1 m then latest50 (surveysCollection w) else surveys (ui m))
           (if answer 0 m && answer 1 m
            then Some (calculateAnalytics (feedback s) (surveys s))
            else analytics (ui m))
           false (refreshing (ui m)) (activeTab (ui m))
    /\ net m' = drop 2 (net m)
    /\ exists evs,
         trace m'
         = trace m ++ Local (setIsLoading true) :: Local feedback_get :: evs
         /\ In (Local surveys_get) evs
         /\ (In (Local (Alert_alert "Error" "Failed to load dashboard data.")) evs
             <-> answer 0 m && answer 1 m = false)
         /\ ~ In (Local router_back) evs.
Proof.
  unfold loadData, loadFeedback, loadSurveys, calculateAnalytics_of, both, fetch,
    settle, try_finally, try_catch, bind, set_state, emit, next_answer, answer.
  destruct (net m) as [|[] [|[] rest]]; simpl;
    (eexists; split; [reflexivity|]); simpl;
    (split_and!; [done | done |]);
    (eexists; split; [rewrite <- !app_assoc; simpl; reflexivity|]);
    simpl; (split; [tauto|]); split; try tauto; try (intros H; intuition congruence);
    split; intros H; intuition congruence.
Qed.

Lemma lets_in_admin w user :
  currentUser w = Some user -> (lets_in w user = true <-> admin w).
Proof.
  intros Hu. unfold lets_in, admin. split.
  - intros H. exists user. split; [done|].
    apply orb_true_iff in H as [H | H].
    + left. destruct (userDoc w) as [d|]; [|done]. exists d. split; [done|].
      apply orb_true_iff in H as [H | H]; apply bool_decide_eq_true in H; auto.
    + right. by apply bool_decide_eq_true in H.
  - intros (user' & Hu' & H). assert (user' = user) as -> by congruence.
    apply orb_true_iff. destruct H as [(d & -> & [H | H]) | H].
    + left. apply orb_true_iff. left. by apply bool_decide_eq_true.
    + left. apply orb_true_iff. right. by apply bool_decide_eq_true.
    + right. by apply bool_decide_eq_true.
Qed.

(** The access check runs [loadData] exactly when it lets the session in;
    otherwise it leaves the state alone. *)
Lemma checkAdminAccess_cases w s m :
  let m' := exec (checkAdminAccess w s) m in
  match currentUser w with
  | None =>
      ui m' = ui m
      /\ new_events m m'
         = [Local (Alert_alert "Access Denied"
                     "You must be logged in to access this page.");
            Local router_back]
  | Some user =>
      if next_answer m then
        if lets_in w user then
          m' = exec (loadData w s)
                 (mkMachine (ui m) (tail (net m))
                    (trace m ++ [Local (users_get (uid user)); Settled true]))
        else
          ui m' = ui m
          /\ new_events m m'
             = [Local (users_get (uid user)); Settled true;
                Local (Alert_alert "Access Denied"
                         "Only superadmin can access this dashboard.");
                Local router_back]
      else
        ui m' = ui m
        /\ new_events m m' = [Local (users_get (uid user)); Settled false]
  end.
Proof.
  unfold new_events, exec, checkAdminAccess, lets_in, fetch, settle, bind, set_state,
    next_answer.
  destruct (currentUser w) as [user|]; simpl.
  2: { rewrite <- !app_assoc, drop_app_length. done. }
  destruct (net m) as [|[] k]; simpl.
  - destruct (match userDoc w with Some _ => _ | None => _ end); simpl.
    + by rewrite <- !app_assoc.
    + destruct (bool_decide (userEmail_ user = _)); simpl.
      * by rewrite <- !app_assoc.
      * rewrite <- !app_assoc, drop_app_length. done.
  - destruct (match userDoc w with Some _ => _ | None => _ end); simpl.
    + by rewrite <- !app_assoc.
    + destruct (bool_decide (userEmail_ user = _)); simpl.
      * by rewrite <- !app_assoc.
      * rewrite <- !app_assoc, drop_app_length. done.
  - rewrite <- !app_assoc, drop_app_length. done.
Qed.

(** X14.  The analytics are one load behind the lists.  [loadData] computes
    them from the feedback and surveys of the render that started it, not from
    the data it has just read: after the mount of an admin they are those of
    the empty lists, whatever was read, and after a refresh they are those of
    the data read at the mount. *)
Theorem analytics_lag_one_load w1 w2 answers :
  admin w1 ->
  Forall (fun b => b = true) answers ->
  let mounted := run [(w1, Mount)] (mkMachine initial answers []) in
  let refreshed := run [(w1, Mount); (w2, Refresh)] (mkMachine initial answers []) in
  feedback (ui mounted) = latest50 (feedbackCollection w1)
  /\ surveys (ui mounted) = latest50 (surveysCollection w1)
  /\ analytics (ui mounted) = Some (calculateAnalytics [] [])
  /\ feedback (ui refreshed) = latest50 (feedbackCollection w2)
  /\ surveys (ui refreshed) = latest50 (surveysCollection w2)
  /\ analytics (ui refreshed)
     = Some (calculateAnalytics (latest50 (feedbackCollection w1))
               (latest50 (surveysCollection w1))).
Proof.
  intros (user & Hu & Hadmin) Hnet mounted refreshed.
  assert (Hin : lets_in w1 user = true).
  { apply lets_in_admin; [done|]. by exists user. }
  assert (Hall : forall (n : nat) (k : list bool), Forall (fun b => b = true) k ->
                   default true (k !! n) = true).
  { intros n k Hk. destruct (k !! n) as [b|] eqn:Hb; [|done].
    rewrite Forall_forall in Hk. apply Hk. by eapply list_elem_of_lookup_2. }
  assert (Hnext : match answers with [] => true | b :: _ => b end = true).
  { destruct answers as [|b k]; [done|]. by apply Forall_cons in Hnet as [? _]. }
  assert (Htail : Forall (fun b => b = true) (tail answers)).
  { destruct answers; [done|]. by apply Forall_cons in Hnet as [_ ?]. }
  (* the mount *)
  pose proof (checkAdminAccess_cases w1 initial (mkMachine initial answers [])) as Hc.
  rewrite Hu in Hc. unfold next_answer in Hc. cbn [net ui trace] in Hc.
  rewrite Hnext, Hin in Hc.
  destruct (loadData_result w1 initial
              (mkMachine initial (tail answers)
                 ([] ++ [Local (users_get (uid user)); Settled true])))
    as (m1 & Hrun1 & Hui1 & Hnet1 & _).
  unfold exec at 2 in Hc. rewrite Hrun1 in Hc. simpl in Hc.
  assert (Hmounted : mounted = m1) by exact Hc.
  unfold answer in Hui1. cbn [net ui] in Hui1, Hnet1.
  rewrite !(Hall _ _ Htail) in Hui1. simpl in Hui1.
  (* the refresh *)
  assert (Hrefreshed : refreshed = step m1 (w2, Refresh)).
  { subst refreshed. unfold run. cbn [fold_left].
    change (step (mkMachine initial answers []) (w1, Mount)) with mounted.
    by rewrite Hmounted. }
  destruct (loadData_result w2 (ui m1)
              (mkMachine (apply_call (setRefreshing true) (ui m1)) (net m1)
                 (trace m1 ++ [Local (setRefreshing true)])))
    as (m2 & Hrun2 & Hui2 & _).
  assert (Hui : ui refreshed = apply_call (setRefreshing false) (ui m2)).
  { rewrite Hrefreshed. unfold step, exec. cbn [fst snd handler].
    unfold onRefresh, bind. unfold set_state at 1. rewrite Hrun2. done. }
  unfold answer in Hui2. cbn [net ui] in Hui2. rewrite Hnet1 in Hui2.
  assert (Hdrop : Forall (fun b => b = true) (drop 2 (tail answers)))
    by by apply Forall_drop.
  rewrite !(Hall _ _ Hdrop) in Hui2. simpl in Hui2.
  rewrite Hmounted, Hui, Hui2, Hui1. simpl. done.
Qed.

Lemma analytics_lag_one_load_witness :
  let mounted := run [(MoreSamples.dashboardOf MoreSamples.root, Mount)]
                     (MoreSamples.dashboardBoot []) in
  length (feedback (ui mounted)) = 2%nat
  /\ analytics (ui mounted) = Some (calculateAnalytics [] []).
Proof.
  destruct (analytics_lag_one_load (MoreSamples.dashboardOf MoreSamples.root)
              (MoreSamples.dashboardOf MoreSamples.root) [])
    as (Hf & _ & Ha & _).
  - exists MoreSamples.root. split; [reflexivity|]. by right.
  - constructor.
  - split; [|exact Ha]. unfold MoreSamples.dashboardBoot. rewrite Hf. by vm_compute.
Defined.

(** X15.  The feedback and the surveys are read from the store exactly when
    the access check lets the session in: a signed-in user whose profile was
    read and who is superadmin by role, by flag or by the address the check
    knows. *)
Theorem data_is_read_only_for_admins w s m c :
  c = feedback_get \/ c = surveys_get ->
  In (Local c) (new_events m (exec (checkAdminAccess w s) m))
  <-> admin w /\ next_answer m = true.
Proof.
  intros Hc. pose proof (checkAdminAccess_cases w s m) as Hcases. simpl in Hcases.
  destruct (currentUser w) as [user|] eqn:Hu.
  - destruct (next_answer m) eqn:Hok.
    + pose proof (lets_in_admin w user Hu) as Hadmin.
      destruct (lets_in w user).
      * rewrite Hcases.
        destruct (loadData_result w s
                    (mkMachine (ui m) (tail (net m))
                       (trace m ++ [Local (users_get (uid user)); Settled true])))
          as (m' & Hrun & _ & _ & evs & Htr & Hsurveys & _).
        unfold exec. rewrite Hrun. unfold new_events. simpl. simpl in Htr.
        rewrite Htr, <- !app_assoc, drop_app_length. simpl.
        split; [intros _; split; [by apply Hadmin | done]|].
        intros _. destruct Hc as [-> | ->]; tauto.
      * destruct Hcases as [_ ->]. split.
        -- simpl. destruct Hc as [-> | ->]; intuition congruence.
        -- intros [Ha _]. apply Hadmin in Ha. done.
    + destruct Hcases as [_ ->]. split.
      * simpl. destruct Hc as [-> | ->]; intuition congruence.
      * by intros [_ ?].
  - destruct Hcases as [_ ->]. split.
    + simpl. destruct Hc as [-> | ->]; intuition congruence.
    + intros [(user & ? & _) _]. congruence.
Qed.

Lemma data_is_read_only_for_admins_witness :
  ~ In (Local feedback_get)
      (new_events (MoreSamples.dashboardBoot [])
         (exec (checkAdminAccess (MoreSamples.dashboardOf MoreSamples.visitor) initial)
               (MoreSamples.dashboardBoot []))).
Proof.
  rewrite (data_is_read_only_for_admins
             (MoreSamples.dashboardOf MoreSamples.visitor) initial
             (MoreSamples.dashboardBoot []) feedback_get (or_introl eq_refl)).
  intros [(user & Hu & [(d & Hd & _) | Hmail]) _].
  - discriminate Hd.
  - injection Hu as <-. discriminate Hmail.
Defined.

(** X16.  [loadData] always ends with [isLoading] false.  When one of its
    two reads is rejected it shows the alert and leaves the analytics as they
    were; the list whose read was answered is replaced all the same. *)
Theorem loadData_failure w s m :
  let m' := exec (loadData w s) m in
  isLoading (ui m') = false
  /\ (answer 0 m && answer 1 m = false ->
      analytics (ui m') = analytics (ui m)
      /\ In (Local (Alert_alert "Error" "Failed to load dashboard data."))
            (new_events m m')
      /\ (answer 0 m = true -> feedback (ui m') = latest50 (feedbackCollection w))
      /\ (answer 1 m = true -> surveys (ui m') = latest50 (surveysCollection w))
      /\ (answer 0 m = false -> feedback (ui m') = feedback (ui m))
      /\ (answer 1 m = false -> surveys (ui m') = surveys (ui m))).
Proof.
  destruct (loadData_result w s m) as (m' & Hrun & Hui & _ & evs & Htr & _ & Halert & _).
  unfold exec, new_events. rewrite Hrun. simpl. rewrite Hui, Htr, drop_app_length. simpl.
  split; [done|]. intros Hko. rewrite Hko.
  split_and!; [done | right; right; by apply Halert | by intros -> ..].
Qed.

Lemma loadData_failure_witness :
  let m := MoreSamples.dashboardBoot [true; false] in
  let m' := exec (loadData (MoreSamples.dashboardOf MoreSamples.root) initial) m in
  analytics (ui m') = None /\ length (feedback (ui m')) = 2%nat.
Proof.
  intros m m'.
  destruct (proj2 (loadData_failure (MoreSamples.dashboardOf MoreSamples.root) initial m)
              eq_refl) as (Ha & _ & Hf & _).
  split; [exact Ha|]. subst m'. rewrite (Hf eq_refl). by vm_compute.
Defined.

(** X17.  When the read of the profile is rejected the access check stops
    there: no alert, no navigation, no read of the data, and the state, with
    [isLoading] as it was, is untouched. *)
Theorem rejected_profile_read_is_silent w s m user :
  currentUser w = Some user ->
  next_answer m = false ->
  let m' := exec (checkAdminAccess w s) m in
  ui m' = ui m
  /\ new_events m m' = [Local (users_get (uid user)); Settled false].
Proof.
  intros Hu Hko. pose proof (checkAdminAccess_cases w s m) as Hcases. simpl in Hcases.
  by rewrite Hu, Hko in Hcases.
Qed.

Lemma rejected_profile_read_is_silent_witness :
  isLoading (ui (exec (checkAdminAccess (MoreSamples.dashboardOf MoreSamples.root) initial)
                      (MoreSamples.dashboardBoot [false]))) = true.
Proof.
  rewrite (proj1 (rejected_profile_read_is_silent
                    (MoreSamples.dashboardOf MoreSamples.root) initial
                    (MoreSamples.dashboardBoot [false]) MoreSamples.root eq_refl eq_refl)).
  reflexivity.
Defined.

(** *** The cap of the two reads *)

Lemma latest50_length {A} (coll : list (Z * A)) : (length (latest50 coll) <= 50)%nat.
Proof. unfold latest50. rewrite length_fmap, length_take. lia. Qed.

Lemma calculateAnalytics_totals fs ss :
  totalFeedback (calculateAnalytics fs ss) = length fs
  /\ totalSurveys (calculateAnalytics fs ss) = length ss.
Proof. unfold calculateAnalytics. by destruct (fold_left rate fs _). Qed.

(** One turn of the dashboard: each list is kept or replaced by what was
    read, the analytics are kept or computed from the lists as they were. *)
Lemma step_lists w a m :
  let m' := step m (w, a) in
  (feedback (ui m') = feedback (ui m)
   \/ feedback (ui m') = latest50 (feedbackCollection w))
  /\ (surveys (ui m') = surveys (ui m)
      \/ surveys (ui m') = latest50 (surveysCollection w))
  /\ (analytics (ui m') = analytics (ui m)
      \/ analytics (ui m')
         = Some (calculateAnalytics (feedback (ui m)) (surveys (ui m)))).
Proof.
  assert (Hload : forall m0 : Machine Screen Call,
            ui m0 = ui m \/ ui m0 = apply_call (setRefreshing true) (ui m) ->
            let m' := exec (loadData w (ui m)) m0 in
            (feedback (ui m') = feedback (ui m)
             \/ feedback (ui m') = latest50 (feedbackCollection w))
            /\ (surveys (ui m') = surveys (ui m)
                \/ surveys (ui m') = latest50 (surveysCollection w))
            /\ (analytics (ui m') = analytics (ui m)
                \/ analytics (ui m')
                   = Some (calculateAnalytics (feedback (ui m)) (surveys (ui m))))).
  { intros m0 H0. destruct (loadData_result w (ui m) m0) as (m' & Hrun & Hui & _).
    unfold exec. rewrite Hrun. simpl. rewrite Hui. simpl.
    assert (feedback (ui m0) = feedback (ui m) /\ surveys (ui m0) = surveys (ui m)
            /\ analytics (ui m0) = analytics (ui m)) as (-> & -> & ->)
      by (destruct H0 as [-> | ->]; done).
    destruct (answer 0 m0), (answer 1 m0); simpl; auto. }
  destruct a; unfold step; cbn [fst snd handler].
  - (* Mount *)
    pose proof (checkAdminAccess_cases w (ui m) m) as Hcases. simpl in Hcases.
    destruct (currentUser w) as [user|]; [|destruct Hcases as [-> _]; auto].
    destruct (next_answer m); [|destruct Hcases as [-> _]; auto].
    destruct (lets_in w user); [|destruct Hcases as [-> _]; auto].
    rewrite Hcases. apply Hload. by left.
  - (* Refresh *)
    pose proof (Hload (mkMachine (apply_call (setRefreshing true) (ui m)) (net m)
                         (trace m ++ [Local (setRefreshing true)])) (or_intror eq_refl))
      as Hl.
    destruct (loadData_result w (ui m)
                (mkMachine (apply_call (setRefreshing true) (ui m)) (net m)
                   (trace m ++ [Local (setRefreshing true)])))
      as (m' & Hrun & _).
    unfold exec in Hl. rewrite Hrun in Hl. simpl in Hl.
    unfold exec, onRefresh, bind, set_state. rewrite Hrun. simpl. exact Hl.
  - (* PickTab *)
    simpl. auto.
Qed.

(** X18.  However the dashboard is used, it never holds more than 50
    feedback records nor more than 50 surveys, and the totals of its analytics
    never exceed 50. *)
Theorem at_most_fifty was answers :
  let m := run was (mkMachine initial answers []) in
  (length (feedback (ui m)) <= 50)%nat
  /\ (length (surveys (ui m)) <= 50)%nat
  /\ (forall a, analytics (ui m) = Some a ->
        (totalFeedback a <= 50)%nat /\ (totalSurveys a <= 50)%nat).
Proof.
  induction was as [|[w a] was IH] using rev_ind.
  - simpl. split_and!; [lia | lia | done].
  - simpl in *. unfold run in *. rewrite fold_left_app. cbn [fold_left].
    destruct IH as (IHf & IHs & IHa).
    destruct (step_lists w a (fold_left step was (mkMachine initial answers [])))
      as (Hf & Hs & Ha).
    split_and!.
    + destruct Hf as [-> | ->]; [done | apply latest50_length].
    + destruct Hs as [-> | ->]; [done | apply latest50_length].
    + intros x Hx. destruct Ha as [Ha | Ha].
      * apply IHa. congruence.
      * rewrite Ha in Hx. injection Hx as <-.
        destruct (calculateAnalytics_totals
                    (feedback (ui (fold_left step was (mkMachine initial answers []))))
                    (surveys (ui (fold_left step was (mkMachine initial answers [])))))
          as [-> ->].
        done.
Qed.

(** *** What the overview and the feedback tab show *)

Lemma width_bounds (n t : Z) :
  0 <= n <= t -> 0 < t ->
  (0 <= inject_Z n / inject_Z t * 100 <= 100)%Q.
Proof.
  intros Hn Ht.
  assert (Hpos : (0 < inject_Z t)%Q) by (rewrite <- (Zlt_Qlt 0); exact Ht).
  assert (Hlow : (0 <= inject_Z n / inject_Z t)%Q).
  { apply Qle_shift_div_l; [done|]. rewrite Qmult_0_l, <- (Zle_Qle 0). lia. }
  assert (Hhigh : (inject_Z n / inject_Z t <= 1)%Q).
  { apply Qle_shift_div_r; [done|]. rewrite Qmult_1_l, <- Zle_Qle. lia. }
  split.
  - apply Qmult_le_0_compat; [done|]. by compute.
  - apply Qle_trans with (1 * 100)%Q; [|by compute].
    apply Qmult_le_compat_r; [done|]. by compute.
Qed.

(** X19.  With every rating in 1..5, each of the five bars of the overview
    has a width between 0 and 100 percent, so that a bar never leaves its
    row; with no feedback the width is 0. *)
Theorem rating_bars_stay_in_the_row feedback surveys r :
  Forall (fun f => 1 <= rating f <= 5) feedback -> 1 <= r <= 5 ->
  exists w, ratingBarWidth (calculateAnalytics feedback surveys) r = Some w
            /\ (0 <= w <= 100)%Q
            /\ (feedback = [] -> w = 0%Q).
Proof.
  intros Hall Hr. unfold ratingBarWidth.
  destruct (calculateAnalytics_totals feedback surveys) as [-> _].
  rewrite AnalyticsFacts.ratingDistribution_count by lia.
  destruct feedback as [|f feedback].
  - exists 0%Q. split; [reflexivity|]. split; [by compute | done].
  - replace (0 <? length (f :: feedback))%nat with true
      by (symmetry; apply Nat.ltb_lt; simpl; lia).
    eexists. split; [reflexivity|]. split; [|done].
    pose proof (AnalyticsFacts.count_rating_sum (f :: feedback) Hall) as Hsum.
    pose proof (AnalyticsFacts.count_rating_nonneg 1 (f :: feedback)).
    pose proof (AnalyticsFacts.count_rating_nonneg 2 (f :: feedback)).
    pose proof (AnalyticsFacts.count_rating_nonneg 3 (f :: feedback)).
    pose proof (AnalyticsFacts.count_rating_nonneg 4 (f :: feedback)).
    pose proof (AnalyticsFacts.count_rating_nonneg 5 (f :: feedback)).
    apply width_bounds; [|simpl; lia].
    assert (Hcases : r = 1 \/ r = 2 \/ r = 3 \/ r = 4 \/ r = 5) by lia.
    destruct Hcases as [-> | [-> | [-> | [-> | ->]]]]; lia.
Qed.

Lemma rating_bars_stay_in_the_row_witness :
  exists w, ratingBarWidth (calculateAnalytics (rated [5; 4; 5]) []) 5 = Some w
            /\ (0 <= w <= 100)%Q.
Proof.
  destruct (rating_bars_stay_in_the_row (rated [5; 4; 5]) [] 5) as (w & Hw & Hb & _).
  - repeat constructor; simpl; lia.
  - lia.
  - exists w. split; [exact Hw | exact Hb].
Defined.

(** X20.  A feedback card shows as many filled stars as the rating, kept
    between 0 and 5. *)
Theorem stars_follow_the_rating item :
  filled (starIcons item) = Z.max 0 (Z.min 5 (rating item)).
Proof.
  unfold filled, starIcons. simpl.
  destruct (Z.leb_spec 1 (rating item)), (Z.leb_spec 2 (rating item)),
    (Z.leb_spec 3 (rating item)), (Z.leb_spec 4 (rating item)),
    (Z.leb_spec 5 (rating item)); simpl; lia.
Qed.
End DashboardMore.

(** ** The course list of the web client *)

Module CourseDisplayMore.
Import CourseDisplay.

Lemma insert_newest_first_perm x l : insert_newest_first x l ≡ₚ x :: l.
Proof.
  induction l as [|y l IH]; simpl; [done|].
  destruct (time y >? time x); [|done].
  rewrite IH. apply Permutation_swap.
Qed.

Lemma insert_newest_first_sorted x l :
  StronglySorted newest_first_order l ->
  StronglySorted newest_first_order (insert_newest_first x l).
Proof.
  induction 1 as [|y l Hl IH Hy]; simpl; [by repeat constructor|].
  destruct (Z.gtb_spec (time y) (time x)) as [Hgt|Hle].
  - constructor; [done|]. rewrite insert_newest_first_perm.
    constructor; [unfold newest_first_order; lia | done].
  - constructor; [by constructor|].
    constructor; [done|].
    eapply Forall_impl; [exact Hy|]. unfold newest_first_order. simpl. lia.
Qed.

Lemma newest_first_perm l : newest_first l ≡ₚ l.
Proof.
  induction l as [|x l IH]; simpl; [done|].
  by rewrite insert_newest_first_perm, IH.
Qed.

Lemma newest_first_sorted l : StronglySorted newest_first_order (newest_first l).
Proof.
  induction l as [|x l IH]; simpl; [constructor|].
  by apply insert_newest_first_sorted.
Qed.

Lemma sortedCourses_perm l : sortedCourses l ≡ₚ List.filter dated l.
Proof. apply newest_first_perm. Qed.

Lemma sortedCourses_dated l : Forall (fun c => dated c = true) (sortedCourses l).
Proof.
  rewrite sortedCourses_perm. apply Forall_forall. intros c Hc.
  apply list_elem_of_In, filter_In in Hc. tauto.
Qed.

(** X21.  Every course list [fetchCourses] sets is in the order newest
    first and holds only courses with a valid creation date. *)
Theorem fetched_courses_are_dated_newest_first w s l :
  In (setCourses l) (fetchCourses w s) ->
  StronglySorted newest_first_order l /\ Forall (fun c => dated c = true) l.
Proof.
  assert (Hfail : forall e, ~ In (setCourses l) (failedToLoad e)).
  { intros e. unfold failedToLoad. destruct (bool_decide _); simpl; intuition congruence. }
  unfold fetchCourses.
  destruct (getAuthToken w s) as [token|]; [|done].
  destruct (role s) as [r|]; [|done].
  destruct (truthy token && truthy r); [|done].
  destruct (isStudent s).
  - intros [Hin | [Hin | Hin]]; [done | done |].
    destruct (studentReplies w) as [[allCourses enrolled]|e]; [|by apply Hfail in Hin].
    destruct (str_eqb (viewType w) (js "all")).
    + destruct enrolled as [enrolled|]; [|by apply Hfail in Hin].
      destruct allCourses as [allCourses|]; [|by apply Hfail in Hin].
      destruct Hin as [Hin | [[= <-] | []]]; [done|].
      split; [apply newest_first_sorted | apply sortedCourses_dated].
    + destruct Hin as [Hin | [[= <-] | []]]; [done|].
      split; [apply newest_first_sorted | apply sortedCourses_dated].
  - intros [Hin | Hin]; [done|].
    destruct (teacherReply w) as [[coursesData|]|e]; try (by apply Hfail in Hin).
    destruct Hin as [[= <-] | []].
    split; [apply newest_first_sorted | apply sortedCourses_dated].
Qed.

Lemma fetched_courses_are_dated_newest_first_witness :
  StronglySorted newest_first_order [MoreSamples.drawing; MoreSamples.algebra].
Proof.
  apply (fetched_courses_are_dated_newest_first MoreSamples.catalogue MoreSamples.student
           [MoreSamples.drawing; MoreSamples.algebra]).
  vm_compute. tauto.
Defined.

(** X22.  In the view [all] of a student, the list shown after a fetch is
    made of the courses of the catalogue that have a valid date and in which
    the student is not enrolled: all of them, each once, and no other. *)
Theorem available_courses_exclude_enrolled w s token r allCourses enrolled :
  getAuthToken w s = Some token -> truthy token = true ->
  role s = Some r -> truthy r = true ->
  isStudent s = true ->
  viewType w = js "all" ->
  studentReplies w = Resolved (Some allCourses, Some enrolled) ->
  let shown := courses (after (fetchCourses w s) s) in
  shown ≡ₚ List.filter (fun c => dated c && negb (enrolled_in enrolled c)) allCourses
  /\ Forall (fun c => c_id c ∉ c_id <$> enrolled) shown
  /\ enrolledCourses (after (fetchCourses w s) s) = enrolled.
Proof.
  intros Hget Htoken Hrole Hr Hstudent Hview Hreply shown. subst shown.
  unfold fetchCourses. rewrite Hget, Hrole, Htoken, Hr, Hstudent, Hreply, Hview.
  assert (str_eqb (js "all") (js "all") = true) as -> by by apply str_eqb_eq.
  cbn -[sortedCourses]. 
  assert (Hperm : sortedCourses
                    (List.filter (fun c => negb (enrolled_in enrolled c)) allCourses)
                  ≡ₚ List.filter (fun c => dated c && negb (enrolled_in enrolled c))
                       allCourses).
  { rewrite sortedCourses_perm. clear. induction allCourses as [|c l IH]; [done|].
    simpl. destruct (enrolled_in enrolled c), (dated c) eqn:Hd; simpl;
      rewrite ?Hd; try done; by rewrite IH. }
  split_and!; [done | | done].
  rewrite Hperm. apply Forall_forall. intros c Hc.
  apply list_elem_of_In, filter_In in Hc as [_ Hc].
  apply andb_true_iff in Hc as [_ Hc]. apply negb_true_iff in Hc.
  unfold enrolled_in in Hc. by apply bool_decide_eq_false in Hc.
Qed.

Lemma available_courses_exclude_enrolled_witness :
  courses (after (fetchCourses MoreSamples.catalogue MoreSamples.student)
                 MoreSamples.student)
  ≡ₚ [MoreSamples.algebra; MoreSamples.drawing].
Proof.
  rewrite (proj1 (available_courses_exclude_enrolled
                    MoreSamples.catalogue MoreSamples.student (js "secret") (js "student")
                    [MoreSamples.algebra; MoreSamples.biology; MoreSamples.chemistry;
                     MoreSamples.drawing] [MoreSamples.biology]
                    eq_refl eq_refl eq_refl eq_refl eq_refl eq_refl eq_refl)).
  by vm_compute.
Defined.

(** The error [fetchCourses] catches, when it catches one. *)
Lemma failedToLoad_after e s :
  courses (after (failedToLoad e) s) = courses s
  /\ message (after (failedToLoad e) s) = js "Failed to load courses. " ++ message_ e
  /\ (In (navigate (js "/login") None) (failedToLoad e) <-> status e = Some 401).
Proof.
  unfold failedToLoad. case_bool_decide as Hs; simpl; split_and!; try done.
  - tauto.
  - split; [|done]. intros [? | []]. done.
Qed.

(** X23.  When the request of [fetchCourses] is rejected, the course list
    stays as it was and the message says that loading failed, with the text of
    the error; the user is sent to the login page exactly when the status of
    the error is 401. *)
Theorem fetchCourses_rejected w s token r error :
  getAuthToken w s = Some token -> truthy token = true ->
  role s = Some r -> truthy r = true ->
  (if isStudent s then studentReplies w = Rejected error
   else teacherReply w = Rejected error) ->
  let calls := fetchCourses w s in
  courses (after calls s) = courses s
  /\ message (after calls s) = js "Failed to load courses. " ++ message_ error
  /\ (In (navigate (js "/login") None) calls <-> status error = Some 401).
Proof.
  intros Hget Htoken Hrole Hr Hreply calls. subst calls.
  unfold fetchCourses. rewrite Hget, Hrole, Htoken, Hr.
  destruct (failedToLoad_after error s) as (Hc & Hm & Hn).
  destruct (isStudent s); rewrite Hreply; cbn [andb app after fold_left apply_call];
    (split_and!; [exact Hc | exact Hm |]);
    rewrite <- Hn; simpl; intuition congruence.
Qed.

Lemma fetchCourses_rejected_witness :
  In (navigate (js "/login") None) (fetchCourses MoreSamples.expired MoreSamples.student).
Proof.
  apply (fetchCourses_rejected MoreSamples.expired MoreSamples.student
           (js "secret") (js "student")
           (mkAxiosError (Some 401) (js "Request failed with status code 401")));
    reflexivity.
Defined.

(** X24.  A reply of get-teacher-courses, or of get-student-courses, that
    resolves without its list of courses: for a teacher, and for a student in
    the view [all], the course list stays as it was, the message reports the
    failure with the text of the type error, and nobody is sent to the login
    page; for a student in another view the missing list counts as empty. *)
Theorem fetchCourses_without_list w s token r allCourses :
  getAuthToken w s = Some token -> truthy token = true ->
  role s = Some r -> truthy r = true ->
  (if isStudent s then studentReplies w = Resolved (allCourses, None)
   else teacherReply w = Resolved None) ->
  let calls := fetchCourses w s in
  if isStudent s && negb (str_eqb (viewType w) (js "all")) then
    courses (after calls s) = [] /\ enrolledCourses (after calls s) = []
    /\ message (after calls s) = message s
  else
    courses (after calls s) = courses s
    /\ message (after calls s) = js "Failed to load courses. " ++ typeError w
    /\ ~ In (navigate (js "/login") None) calls.
Proof.
  intros Hget Htoken Hrole Hr Hreply calls. subst calls.
  unfold fetchCourses. rewrite Hget, Hrole, Htoken, Hr.
  destruct (isStudent s); rewrite Hreply; simpl.
  - destruct (str_eqb (viewType w) (js "all")); simpl; split_and!; try done;
      intuition congruence.
  - split_and!; try done. intuition congruence.
Qed.

Lemma fetchCourses_without_list_witness :
  message (after (fetchCourses MoreSamples.incomplete MoreSamples.teacher)
             MoreSamples.teacher)
  = js "Failed to load courses. Cannot read properties of undefined".
Proof.
  exact (proj1 (proj2 (fetchCourses_without_list
                         MoreSamples.incomplete MoreSamples.teacher
                         (js "secret") (js "teacher") None
                         eq_refl eq_refl eq_refl eq_refl eq_refl))).
Defined.

(** Without a token for the role, or without a role, [fetchCourses] returns
    at once. *)
Lemma fetchCourses_nothing w s :
  present (getAuthToken w s) = false \/ present (role s) = false ->
  fetchCourses w s = [].
Proof.
  unfold fetchCourses, present.
  destruct (getAuthToken w s) as [token|]; [|done].
  destruct (role s) as [r|]; [|done].
  intros [Hk | Hk]; rewrite Hk; [done|]. by rewrite andb_false_r.
Qed.

Lemma failedToLoad_requests e : Forall (fun c => is_request c = false) (failedToLoad e).
Proof. unfold failedToLoad. destruct (bool_decide _); repeat constructor. Qed.

(** X25.  Every request of [fetchCourses] carries the token kept for the
    current role, and that token is not empty: the key it is read under is
    the role followed by [Token]. *)
Theorem fetchCourses_uses_the_token_of_the_role w s path token :
  In (axios_get path token) (fetchCourses w s) ->
  token <> [] /\ exists r, role s = Some r /\ r <> []
                           /\ getItem w (r ++ js "Token") = Some token.
Proof.
  assert (Hfail : forall e path token, ~ In (axios_get path token) (failedToLoad e)).
  { intros e p t Hin. pose proof (failedToLoad_requests e) as Hall.
    rewrite Forall_forall in Hall. apply list_elem_of_In, Hall in Hin. done. }
  unfold fetchCourses, getAuthToken.
  destruct (role s) as [r|] eqn:Hrole; simpl.
  2: { by destruct (getItem w _). }
  destruct (getItem w (r ++ js "Token")) as [token0|] eqn:Hget; [|done].
  destruct token0 as [|c token0]; [done|]. destruct r as [|c' r]; [done|]. simpl.
  assert (Hgoal : token = c :: token0 ->
            token <> [] /\ exists r0, Some (c' :: r) = Some r0 /\ r0 <> []
              /\ getItem w (r0 ++ js "Token") = Some token).
  { intros ->. split; [done|]. exists (c' :: r). by split_and!. }
  destruct (isStudent s).
  - intros [[= _ <-] | [[= _ <-] | Hin]]; [by apply Hgoal..|].
    exfalso. destruct (studentReplies w) as [[allCourses enrolled]|e];
      [|by apply Hfail in Hin].
    destruct (str_eqb (viewType w) (js "all")).
    + destruct enrolled; [|by apply Hfail in Hin].
      destruct allCourses; [|by apply Hfail in Hin].
      simpl in Hin. intuition congruence.
    + simpl in Hin. intuition congruence.
  - intros [[= _ <-] | Hin]; [by apply Hgoal|].
    exfalso. destruct (teacherReply w) as [[l|]|e]; try (by apply Hfail in Hin).
    simpl in Hin. intuition congruence.
Qed.

Lemma fetchCourses_uses_the_token_of_the_role_witness :
  exists r, role MoreSamples.student = Some r /\ r <> []
            /\ getItem MoreSamples.catalogue (r ++ js "Token") = Some (js "secret").
Proof.
  apply (fetchCourses_uses_the_token_of_the_role MoreSamples.catalogue MoreSamples.student
           "/corner/course/get-all-courses" (js "secret")).
  left. reflexivity.
Defined.

(** X26.  A role whose token is missing, while the token of the other role is
    stored: [checkRole] does not send the user to the login page, and the
    [fetchCourses] of the render that follows does nothing, so the page stays
    as it was, without courses and without a message. *)
Theorem role_without_its_token w s r :
  currentRole w = Some r ->
  present (getItem w (r ++ js "Token")) = false ->
  present (getItem w (js "studentToken")) = true
  \/ present (getItem w (js "teacherToken")) = true ->
  let s' := after (checkRole w) s in
  ~ In (navigate (js "/login") None) (checkRole w)
  /\ fetchCourses w s' = []
  /\ courses s' = courses s /\ message s' = message s.
Proof.
  intros Hrole Hnone Hother s'. subst s'. unfold checkRole. split_and!.
  - destruct Hother as [-> | ->]; rewrite ?andb_false_r; simpl; intuition congruence.
  - apply fetchCourses_nothing. left. unfold getAuthToken.
    destruct (negb _ && negb _); simpl; by rewrite Hrole.
  - by destruct (negb _ && negb _).
  - by destruct (negb _ && negb _).
Qed.

Lemma role_without_its_token_witness :
  fetchCourses MoreSamples.mismatched
    (after (checkRole MoreSamples.mismatched) initial) = [].
Proof.
  apply (role_without_its_token MoreSamples.mismatched initial (js "student"));
    [reflexivity | reflexivity | right; reflexivity].
Defined.








(** X28.  [handleArchiveCourse] and [handleDeleteCourse] only close the menu
    and ask for confirmation: whatever the answer, no request is sent and the
    list of courses stays as it was. *)
Theorem archive_and_delete_change_nothing w s k :
  k = Archive \/ k = Delete ->
  Forall (fun c => is_request c = false) (click w s k)
  /\ courses (after (click w s k) s) = courses s
  /\ after (click w s k) s
     = match selectedCourse s with
       | Some _ => after handleCloseActionMenu s
       | None => s
       end.
Proof.
  intros [-> | ->]; simpl; unfold handleArchiveCourse, handleDeleteCourse;
    (destruct (selectedCourse s); [|by split_and!; [constructor|..]]);
    destruct (confirms w); split_and!; try done; repeat constructor.
Qed.

Lemma archive_and_delete_change_nothing_witness :
  let s := after (handleActionMenu MoreSamples.algebra) MoreSamples.teacher in
  courses (after (click MoreSamples.incomplete s Delete) s) = [MoreSamples.algebra].
Proof.
  exact (proj1 (proj2 (archive_and_delete_change_nothing MoreSamples.incomplete
           (after (handleActionMenu MoreSamples.algebra) MoreSamples.teacher)
           Delete (or_intror eq_refl)))).
Defined.

Lemma fetchCourses_gets w s :
  present (getAuthToken w s) = false ->
  Forall (fun c => is_request c = false) (fetchCourses w s).
Proof. intros H. rewrite fetchCourses_nothing by (by left). constructor. Qed.

(** X29.  [handleEnrollment] does not look at the token: without a token for
    the role the enrol request is still sent, with no token in its header, and
    it is the only request of the handler; nothing is fetched afterwards. *)
Theorem enrolment_without_token w s courseId :
  present (getAuthToken w s) = false ->
  exists rest,
    handleEnrollment w s courseId = axios_post_enroll courseId (getAuthToken w s) :: rest
    /\ Forall (fun c => is_request c = false) rest.
Proof.
  intros Hnone. unfold handleEnrollment. eexists. split; [reflexivity|].
  destruct (enrollReply w) as [[]|e]; [|repeat constructor].
  constructor; [done|].
  destruct (str_eqb (viewType w) (js "all")); [repeat constructor|].
  by apply fetchCourses_gets.
Qed.

Lemma enrolment_without_token_witness :
  exists rest,
    handleEnrollment MoreSamples.mismatched MoreSamples.student (js "c1")
    = axios_post_enroll (js "c1") None :: rest
    /\ Forall (fun c => is_request c = false) rest.
Proof.
  apply (enrolment_without_token MoreSamples.mismatched MoreSamples.student (js "c1")).
  reflexivity.
Defined.
End CourseDisplayMore.
